(* ===== verification/_CoqProject ===== *)
-Q . S2P
Prelude.v
PyBuiltins.v
Questions.v
Callback.v
Store.v
Proc.v
Handlers.v
Concurrency.v
Game.v
Startup.v
Scenarios.v
