(* ===== verification/Prelude.v ===== *)
(** * A verification development of the Strange Things Bot

    The program is src/bot_aiogram.py: a Telegram quiz bot written against
    aiogram 2.  It keeps one process-wide dictionary [user_state]
    (user id -> {"score": int, "qidx": int | None}), a constant list
    [QUESTIONS] of four quiz items, and seven handlers registered with the
    aiogram dispatcher: the message handlers [cmd_start], [cmd_play],
    [cmd_score], [cmd_quit] and the callback-query handlers
    [process_answer], [process_quit], [process_hint].  Inline buttons built
    by [question_kb] carry the strings "answer|<qidx>|<i>", "hint|<qidx>"
    and "quit"; the callback handlers split these strings on '|' and parse
    the fields with Python's [int].  Handlers are coroutines: they change
    [user_state] synchronously and then await outbound Telegram calls
    (reply, answer, edit_text), one of which ([process_answer]) is wrapped
    in a try/except with a fallback reply.  At start-up [on_startup] calls
    [set_bot_texts], which registers the bot's descriptions and swallows
    [TelegramAPIError].

    ** Files, in dependency order

    - [Prelude] (this file): the notation scope [bot_scope], the tactics
      and the hint database [bot], generic lemmas on lists and integers.
    - [PyBuiltins]: the Python built-ins the bot's code calls, as they
      behave in CPython: list indexing with negative indices
      ([QUESTIONS[qidx]]), [str.split("|")], [str.startswith], [int(s)]
      (leading/trailing whitespace of C's [Py_ISSPACE], sign, single
      underscores between digits) and [str(int)] inside f-strings.  Round trips
      [int(w1 + str(z) + w2) = z] for whitespace [w1], [w2] and [split]
      of a joined string.
    - [Questions]: the [QUESTIONS] table verbatim and the inline keyboard
      [question_kb].
    - [Store]: the session dictionary [user_state] as a stdpp [gmap Z
      session] and the dictionary operations the handlers use ([get] with
      default, [setdefault], [in], [del], item assignment); the
      [SessionStore] interface of the spec (get/set/delete/mutateScore) as
      a type class, of which the dictionary is the instance [Game] uses.
    - [Proc]: handlers as coroutines, an inductive tree of store accesses,
      random draws, log lines and awaited Telegram calls, with [bind],
      try/except, and an executable sequential runner driven by an oracle
      of random draws and call outcomes.
    - [Handlers]: the seven handlers of src/bot_aiogram.py (lines 63-144)
      and the aiogram dispatch by command and callback filter, with their
      functional theorems, error behaviour and the fallback path.
    - [Concurrency]: the asyncio event loop the spec describes (section
      5): a configuration of [user_state], tasks and random draws, and a
      labelled [step] relation (an update arrives; a task runs a slice up
      to its next await; an awaited call completes with any outcome).
      Every handler is [atomic] (all its store accesses and draws precede
      its first await), hence every interleaving is a serial run in the
      order of first slices ([interleaving_serializable]).
    - [Game]: the typed design of the spec (section 9): a payload variant
      decoded once, and the per-user step [spec_step] over any store that
      implements the [SessionStore] class; [handle_step_refines] shows
      that the string-based handlers implement one step of it on the
      dictionary.
    - [Startup]: the [BOT_TOKEN] placeholder check over an environment map,
      [set_bot_texts] and [on_startup].
    - [Scenarios]: properties of sequences of updates: the refinement of
      whole executions ([bot_refines_game]), isolation of users,
      scores adding up in every interleaving, the payloads the decoding
      accepts beyond the buttons' own, and the spec's end-to-end scenario.

    ** The theorems, by group

    - Refinement: [Scenarios.bot_refines_game] (every interleaving of the
      handlers refines the typed game run in start order).
    - Concurrency: [Concurrency.interleaving_serializable] and
      [Scenarios.concurrent_scores_add_up]: the spec's per-user lock is not
      needed, no answer is lost.
    - Functional behaviour of each handler on every branch, errors
      included ([Handlers]): scoring, /play reset, /quit and the Quit
      button, /score, hints, the try/except fallback and its propagating
      failure, rejected payloads.
    - Round trips: [Handlers.callback_roundtrip] (button data reach their
      handler and parse back to the payload), [Callback.question_kb_decode]
      (the keyboard's buttons in order), [PyBuiltins.py_int_padded].
    - Start-up: [Startup.set_bot_texts_outcome], [on_startup_completes],
      [check_token_warns].  aiogram's own check of the token in [Bot()]
      (line 24) is library code and not modelled.
    - Whole-bot: [Scenarios.handle_isolates_users], [handle_completes]
      (spec section 7 on the bot's own keyboards), [spec_scenario],
      [negative_index_scores], [padded_answer_accepted] (what the lenient
      decoding of payloads accepts).

    ** Modelling choices

    Python ints are [Z] (unbounded, as in Python); scores are never
    clamped.  [random.randrange(n)] is an oracle draw reduced modulo [n]
    (every in-range sequence of draws is represented).  Outbound Telegram
    calls are [Await] nodes whose outcome (success, or the exception the
    call raises) is chosen by an oracle; the texts and keyboards sent are
    recorded in a trace.  Strings are Rocq [string]s of bytes; the UTF-8
    emoji of the source are kept byte for byte.  [int] is modelled on
    ASCII input: CPython also accepts non-ASCII decimal digits and
    spaces, which no button of the bot produces.  No fuel is needed
    anywhere: handler trees are finite inductive values and every runner
    is structural; executions of the event loop are finite traces of the
    inductive [steps], so the concurrency theorems cover every finite
    interleaving, by induction on the trace.

    ** Not modelled

    The aiogram library itself (long polling, update parsing, the
    [Command] filter's extraction of the command word, HTTP), logging
    configuration, [load_dotenv], the construction of [Bot] and
    [Dispatcher] (lines 23-25) and the process entry point
    [executor.start_polling] (lines 158-159): these are library calls
    with no logic of the repository.  What the entry point starts, the
    asyncio loop running one task per update, is modelled from the spec in
    [Concurrency].  The probability distribution of [random.randrange] is
    not modelled: the theorems hold for every sequence of draws. *)

From Stdlib Require Export ZArith String Ascii DecimalString DecimalNat Lia.
From stdpp Require Export base gmap strings list.

Declare Scope bot_scope.
Delimit Scope bot_scope with bot.

(** String concatenation is stdpp's [+:+] ([String.append]), as Python's
    [+] and f-strings use it.  stdpp marks [String.append] [simpl never];
    the handlers' texts are built by appending, so it is restored here. *)
#[global] Arguments String.append : simpl nomatch.

Open Scope Z_scope.
Open Scope bot_scope.

Create HintDb bot.
Create Rewrite HintDb bot.

(** ** Generic lemmas on lists, options and integers *)

Section ListFacts.
Context {A : Type}.

(** Looking up an index given as a non-negative [Z]. *)
Lemma lookup_Z_lt (l : list A) (i : Z) :
  0 <= i < Z.of_nat (length l) -> is_Some (l !! Z.to_nat i).
Proof. intros Hi. apply lookup_lt_is_Some_2. lia. Qed.

Lemma lookup_Z_ge (l : list A) (i : Z) :
  Z.of_nat (length l) <= i -> l !! Z.to_nat i = None.
Proof. intros Hi. apply lookup_ge_None_2. lia. Qed.

(** A list of one-element rows flattens back to the list. *)
Lemma concat_singletons (l : list A) : concat ((fun x => [x]) <$> l) = l.
Proof. induction l as [|x l IH]; [done|]. csimpl. by f_equal. Qed.

Lemma Forall_singletons (l : list A) :
  Forall (fun row : list A => length row = 1%nat) ((fun x => [x]) <$> l).
Proof. induction l; simpl; constructor; auto. Qed.
End ListFacts.

(** [String.append] is associative; f-strings are built by nesting it. *)
Lemma string_app_assoc (a b c : string) :
  (a +:+ b) +:+ c = a +:+ (b +:+ c).
Proof. induction a as [|x a IH]; [done | exact (f_equal (String x) IH)]. Qed.

Lemma string_app_nil_r (a : string) : a +:+ "" = a.
Proof. induction a as [|x a IH]; [done | exact (f_equal (String x) IH)]. Qed.

Lemma string_app_cons (x : ascii) (a b : string) :
  String x a +:+ b = String x (a +:+ b).
Proof. done. Qed.

#[export] Hint Rewrite string_app_assoc string_app_nil_r string_app_cons : bot.

(** Closes arithmetic side conditions over [Z] and [nat] after unfolding
    boolean comparisons. *)
Ltac zify_bool :=
  repeat match goal with
  | H : (_ <=? _) = true |- _ => apply Z.leb_le in H
  | H : (_ <=? _) = false |- _ => apply Z.leb_gt in H
  | H : (_ <? _) = true |- _ => apply Z.ltb_lt in H
  | H : (_ <? _) = false |- _ => apply Z.ltb_ge in H
  | H : (_ =? _) = true |- _ => apply Z.eqb_eq in H
  | H : (_ =? _) = false |- _ => apply Z.eqb_neq in H
  | H : (_ && _)%bool = true |- _ => apply andb_true_iff in H as [? ?]
  end.

Ltac bot_lia := zify_bool; lia.

(** Replaces a closed instance of the pattern [pat] in the goal by its
    value, for definitions that [simpl] and [cbn] leave folded. *)
Tactic Notation "eval_closed" open_constr(pat) :=
  match goal with
  | |- context [?t] =>
      unify t pat;
      let v := eval vm_compute in t in change t with v
  end.
