(* ===== verification/PyBuiltins.v ===== *)
(** Python built-ins called by src/bot_aiogram.py, with CPython's
    behaviour: [lst[i]] on a list (negative indices count from the end,
    otherwise [IndexError]), [s.split("|")], [s.startswith(p)], [int(s)]
    in base 10, [str(z)] as f-strings print an int, and [s.lower()] as
    aiogram's command filter applies it.  Each is executable; the lemmas
    are the facts the handlers need: in-range and negative indexing,
    splitting a joined string, and the round trip [int(str(z)) = z]. *)

From S2P Require Import Prelude.

Module Py.

(** ** Exceptions the bot's code can raise: [ValueError] from [int] or a
    tuple unpacking of the wrong length, [IndexError] from list indexing,
    [KeyError] from [del] of an absent key,
    [TelegramAPIError] (aiogram's base class of API and network errors)
    and any other exception an awaited call can raise. *)
Inductive exn := ValueError | IndexError | KeyError | TelegramAPIError | OtherError.

#[global] Instance exn_eq_dec : EqDecision exn.
Proof. solve_decision. Defined.

(** ** List indexing [lst[i]] (CPython [list_subscript]: a negative index
    is increased by [len(lst)], then bounds-checked; [None] is the
    [IndexError] it raises). *)
Definition py_index {A} (l : list A) (i : Z) : option A :=
  let j := if i <? 0 then i + Z.of_nat (length l) else i in
  if j <? 0 then None else l !! Z.to_nat j.

(** ** [s.split(sep)] for a one-character separator: every occurrence
    cuts, empty fields are kept, and the empty string gives [[""]]. *)
Fixpoint py_split (sep : ascii) (s : string) : list string :=
  match s with
  | EmptyString => [""%string]
  | String c r =>
      let parts := py_split sep r in
      if ascii_dec c sep then ""%string :: parts
      else match parts with
           | p :: ps => String c p :: ps
           | [] => [String c ""]
           end
  end.

(** [sep in s] for a one-character [sep]. *)
Fixpoint has_char (sep : ascii) (s : string) : bool :=
  match s with
  | EmptyString => false
  | String c r => if ascii_dec c sep then true else has_char sep r
  end.

(** ** [s.startswith(p)]: byte-wise comparison of the prefix. *)
Fixpoint starts_with (p s : string) : bool :=
  match p, s with
  | EmptyString, _ => true
  | String a p', String b s' => if ascii_dec a b then starts_with p' s' else false
  | String _ _, EmptyString => false
  end.

Definition py_startswith (s p : string) : bool := starts_with p s.

(** ** [int(s)] in base 10 (CPython [PyLong_FromString]): skip leading
    whitespace, an optional sign, at least one digit, digits separated by
    single underscores (no leading, doubled or trailing underscore), then
    only whitespace to the end.  [None] is the [ValueError].  On ASCII
    input the whitespace is C's [Py_ISSPACE]: tab, newline, vertical tab,
    form feed, carriage return and space (bytes 9-13 and 32); the
    separators 28-31, which [str.isspace] accepts, are not stripped by
    [int]. *)
Definition is_py_space (c : ascii) : bool :=
  let n := nat_of_ascii c in
  ((9 <=? n) && (n <=? 13))%nat || (n =? 32)%nat.

Definition digit_value (c : ascii) : option Z :=
  let n := Z.of_N (N_of_ascii c) in
  if (48 <=? n) && (n <=? 57) then Some (n - 48) else None.

Fixpoint drop_space (l : list ascii) : list ascii :=
  match l with
  | c :: r => if is_py_space c then drop_space r else l
  | [] => []
  end.

(** The digit loop: [prev_us] records that the previous character was an
    underscore.  Returns the value and the unread rest. *)
Fixpoint scan_digits_acc (l : list ascii) (acc : Z) (prev_us : bool)
  : option (Z * list ascii) :=
  match l with
  | [] => if prev_us then None else Some (acc, [])
  | c :: r =>
      if ascii_dec c "_" then
        if prev_us then None else scan_digits_acc r acc true
      else match digit_value c with
           | Some d => scan_digits_acc r (10 * acc + d) false
           | None => if prev_us then None else Some (acc, l)
           end
  end.

Definition scan_digits (l : list ascii) : option (Z * list ascii) :=
  match l with
  | c :: r =>
      match digit_value c with
      | Some d => scan_digits_acc r d false
      | None => None
      end
  | [] => None
  end.

(** The optional sign after the leading whitespace. *)
Definition take_sign (l : list ascii) : Z * list ascii :=
  match l with
  | c :: r =>
      if ascii_dec c "+" then (1, r)
      else if ascii_dec c "-" then (-1, r) else (1, l)
  | [] => (1, [])
  end.

Definition py_int (s : string) : option Z :=
  let '(sgn, l) := take_sign (drop_space (list_ascii_of_string s)) in
  match scan_digits l with
  | Some (v, rest) => if forallb is_py_space rest then Some (sgn * v) else None
  | None => None
  end.

(** ** [str(z)] for an int, as [f"{z}"] prints it. *)
Definition str_of_nat (n : nat) : string :=
  NilEmpty.string_of_uint (Nat.to_uint n).

Definition py_str (z : Z) : string :=
  (if z <? 0 then "-" else "") +:+ str_of_nat (Z.to_nat (Z.abs z)).

(** ** [s.lower()] on ASCII letters. *)
Definition ascii_lower (c : ascii) : ascii :=
  let n := nat_of_ascii c in
  if ((65 <=? n) && (n <=? 90))%nat then ascii_of_nat (n + 32) else c.

Fixpoint py_lower (s : string) : string :=
  match s with
  | EmptyString => EmptyString
  | String c r => String (ascii_lower c) (py_lower r)
  end.

(** Whitespace only (or empty), in the sense of [int]'s stripping. *)
Definition py_blank (w : string) : bool := forallb is_py_space (list_ascii_of_string w).

(** Where the digit loop of [int] stops without error: the end of the
    input, or a character that is neither a digit nor an underscore. *)
Definition scan_stop (rest : list ascii) : Prop :=
  match rest with
  | [] => True
  | c :: _ => c <> "_"%char /\ digit_value c = None
  end.

(** [int("\x1c1")] raises, [int("\x0b1")] is 1. *)
Example py_int_control_chars :
  py_int (String (ascii_of_nat 28) "1") = None /\
  py_int (String (ascii_of_nat 11) "1") = Some 1.
Proof. split; vm_compute; reflexivity. Qed.

(** CPython's answers on the inputs its documentation singles out. *)
Example py_int_cases :
  map py_int [" -12 "; "1_000"; "+7"; "007"; "1__0"; "_1"; "1_"; "";
              "+"; "- 1"; "1 2"; "x"]%string =
  [Some (-12); Some 1000; Some 7; Some 7; None; None; None; None;
   None; None; None; None].
Proof. vm_compute. reflexivity. Qed.

Example py_split_cases :
  map (py_split "|") ["answer|1|2"; "quit"; ""; "a||b|"]%string =
  [["answer"; "1"; "2"]; ["quit"]; [""]; ["a"; ""; "b"; ""]]%string.
Proof. vm_compute. reflexivity. Qed.

Example py_index_cases :
  map (py_index [10; 11; 12; 13]) [0; 3; 4; -1; -4; -5] =
  [Some 10; Some 13; None; Some 13; Some 10; None].
Proof. reflexivity. Qed.

(** ** Indexing *)

Lemma py_index_nonneg {A} (l : list A) (i : Z) :
  0 <= i -> py_index l i = l !! Z.to_nat i.
Proof.
  intros Hi. unfold py_index.
  destruct (Z.ltb_spec i 0); [lia|]. destruct (Z.ltb_spec i 0); [lia|done].
Qed.

Lemma py_index_neg {A} (l : list A) (i : Z) :
  i < 0 -> py_index l i =
    if i + Z.of_nat (length l) <? 0 then None
    else l !! Z.to_nat (i + Z.of_nat (length l)).
Proof. intros Hi. unfold py_index. by destruct (Z.ltb_spec i 0); [|lia]. Qed.

(** [lst[i]] succeeds exactly on [-len(lst) <= i < len(lst)]. *)
Lemma py_index_is_Some {A} (l : list A) (i : Z) :
  is_Some (py_index l i) <->
  - Z.of_nat (length l) <= i < Z.of_nat (length l).
Proof.
  unfold py_index.
  destruct (Z.ltb_spec i 0) as [Hi|Hi];
    [destruct (Z.ltb_spec (i + Z.of_nat (length l)) 0)
    |destruct (Z.ltb_spec i 0)];
    rewrite ?lookup_lt_is_Some; split; intros Hs;
    try lia; by destruct Hs.
Qed.

(** ** Splitting *)

Lemma py_split_no_sep sep s :
  has_char sep s = false -> py_split sep s = [s].
Proof.
  induction s as [|c s IH]; intros Hs; [done|]. simpl in *.
  destruct (ascii_dec c sep); [done|]. by rewrite IH.
Qed.

Lemma py_split_app sep a b :
  has_char sep a = false ->
  py_split sep (a +:+ String sep b) = a :: py_split sep b.
Proof.
  induction a as [|c a IH]; intros Ha; simpl in *.
  - by destruct (ascii_dec sep sep).
  - destruct (ascii_dec c sep); [done|]. change (String c a +:+ String sep b)
      with (String c (a +:+ String sep b)). simpl. by rewrite IH.
Qed.

Lemma py_startswith_app (p s : string) : py_startswith (p +:+ s) p = true.
Proof.
  unfold py_startswith. induction p as [|a p IH]; [by destruct s|].
  simpl. by destruct (ascii_dec a a).
Qed.

(** ** Printing and parsing ints *)

(** The digit loop reads the decimal digits of [d] into the accumulator,
    as [Nat.of_uint_acc] does, and stops at the rest. *)
Lemma scan_digits_acc_uint (d : Decimal.uint) (acc : nat) (rest : list ascii) :
  scan_stop rest ->
  scan_digits_acc (list_ascii_of_string (NilEmpty.string_of_uint d) ++ rest)
    (Z.of_nat acc) false = Some (Z.of_nat (Nat.of_uint_acc d acc), rest).
Proof.
  intros Hr. revert acc. induction d; intros acc.
  1: { destruct rest as [|c r]; [done|]. destruct Hr as [Hu Hd]. simpl.
       destruct (ascii_dec c "_"); [done|]. by rewrite Hd. }
  all: cbn -[Nat.tail_mul Z.of_nat]; eval_closed (digit_value _); cbv iota beta;
  match goal with
  | |- scan_digits_acc _ ?a _ = Some (Z.of_nat (Nat.of_uint_acc _ ?n), _) =>
      replace a with (Z.of_nat n) by (rewrite Nat.tail_mul_spec; lia);
      apply IHd
  end.
Qed.

Lemma to_uint_not_nil (n : nat) : Nat.to_uint n <> Decimal.Nil.
Proof.
  intros H. pose proof (Unsigned.of_to n) as Hn. rewrite H in Hn.
  subst n. discriminate H.
Qed.

Lemma scan_digits_str_of_nat (n : nat) (rest : list ascii) :
  scan_stop rest ->
  scan_digits (list_ascii_of_string (str_of_nat n) ++ rest) = Some (Z.of_nat n, rest).
Proof.
  intros Hr. unfold str_of_nat. rewrite <- (Unsigned.of_to n) at 2.
  pose proof (to_uint_not_nil n) as Hnil.
  destruct (Nat.to_uint n); [done|..]; cbn -[Nat.tail_mul Z.of_nat];
  eval_closed (digit_value _); cbv iota beta;
  match goal with
  | |- _ = Some (Z.of_nat (Nat.of_uint_acc ?u ?n), _) =>
      exact (scan_digits_acc_uint u n rest Hr)
  end.
Qed.

(** The first character [str(n)] prints is a digit, so neither the
    whitespace skip nor the sign test consumes it. *)
Lemma str_of_nat_head (n : nat) :
  exists c s, str_of_nat n = String c s /\ is_Some (digit_value c) /\
    is_py_space c = false /\ c <> "+"%char /\ c <> "-"%char.
Proof.
  unfold str_of_nat. pose proof (to_uint_not_nil n) as Hnil.
  destruct (Nat.to_uint n); [done|..]; simpl; eexists _, _;
    (split; [reflexivity|]); (split; [eexists; reflexivity|]); done.
Qed.

(** A whitespace character is not an underscore, a separator or a
    digit. *)
Lemma space_char (c : ascii) :
  is_py_space c = true -> c <> "_"%char /\ c <> "|"%char /\ digit_value c = None.
Proof.
  destruct c as [[] [] [] [] [] [] [] []]; intros H; vm_compute in H;
    try discriminate H; split_and!; try discriminate; reflexivity.
Qed.

Lemma list_ascii_app (a b : string) :
  list_ascii_of_string (a +:+ b) = list_ascii_of_string a ++ list_ascii_of_string b.
Proof. induction a as [|c a IH]; simpl; [done|]. by rewrite IH. Qed.

Lemma drop_space_blank (w l : list ascii) :
  forallb is_py_space w = true -> drop_space (w ++ l) = drop_space l.
Proof.
  induction w as [|c w IH]; [done|]. intros H. apply andb_prop in H as [Hc Hw].
  simpl. rewrite Hc. auto.
Qed.

Lemma blank_scan_stop (w : string) : py_blank w = true -> scan_stop (list_ascii_of_string w).
Proof.
  unfold py_blank. destruct (list_ascii_of_string w) as [|c r]; [done|].
  intros H. apply andb_prop in H as [Hc _]. by destruct (space_char c Hc) as (? & _ & ?).
Qed.

(** [int(w1 + str(z) + w2) == z] for every int [z] and whitespace [w1],
    [w2]: [int] strips the whitespace around the printed int. *)
Lemma py_int_padded (w1 w2 : string) (z : Z) :
  py_blank w1 = true -> py_blank w2 = true -> py_int (w1 +:+ py_str z +:+ w2) = Some z.
Proof.
  intros H1 H2. destruct (str_of_nat_head (Z.to_nat (Z.abs z)))
    as (c & s & Hs & Hd & Hsp & Hp & Hm).
  pose proof (scan_digits_str_of_nat (Z.to_nat (Z.abs z)) _ (blank_scan_stop w2 H2)) as Hscan.
  rewrite Hs in Hscan. cbn [list_ascii_of_string app] in Hscan.
  unfold py_int, py_str. rewrite !list_ascii_app, drop_space_blank by exact H1.
  rewrite Hs. unfold py_blank in H2.
  destruct (Z.ltb_spec z 0); cbn [list_ascii_of_string app drop_space].
  - eval_closed (is_py_space "-"%char). cbn [take_sign].
    destruct (ascii_dec "-" "+") as [Hx|_]; [discriminate Hx|].
    destruct (ascii_dec "-" "-") as [_|Hx]; [|done].
    rewrite Hscan, H2. f_equal. lia.
  - rewrite Hsp. cbn [take_sign].
    destruct (ascii_dec c "+"); [done|]. destruct (ascii_dec c "-"); [done|].
    rewrite Hscan, H2. f_equal. lia.
Qed.

(** [int(str(z)) == z] for every int [z]: the round trip of the
    f-string printing of an int through [int]. *)
Lemma py_int_py_str (z : Z) : py_int (py_str z) = Some z.
Proof.
  pose proof (py_int_padded "" "" z eq_refl eq_refl) as H.
  by rewrite string_app_nil_r in H.
Qed.

Lemma has_char_app (sep : ascii) (a b : string) :
  has_char sep (a +:+ b) = has_char sep a || has_char sep b.
Proof. induction a as [|c a IH]; simpl; [done|]. by destruct (ascii_dec c sep). Qed.

Lemma has_char_blank (w : string) : py_blank w = true -> has_char "|" w = false.
Proof.
  unfold py_blank. induction w as [|c w IH]; simpl; [done|]. intros H.
  apply andb_prop in H as [Hc Hw]. destruct (space_char c Hc) as (_ & Hbar & _).
  destruct (ascii_dec c "|"); [done|]. auto.
Qed.

(** A printed int contains no ['|'], so it survives [split("|")]. *)
Lemma has_char_str_of_nat (n : nat) : has_char "|" (str_of_nat n) = false.
Proof.
  unfold str_of_nat. induction (Nat.to_uint n); simpl; done.
Qed.

Lemma has_char_py_str (z : Z) : has_char "|" (py_str z) = false.
Proof.
  unfold py_str. destruct (z <? 0); simpl; apply has_char_str_of_nat.
Qed.

End Py.
