(* ===== verification/Questions.v ===== *)
(** The question bank of src/bot_aiogram.py (lines 36-61) and the inline
    keyboard [question_kb] (lines 63-70).  A question is a record with the
    source's four keys; [QUESTIONS] is the table verbatim.
    [question_kb] is defined exactly where [QUESTIONS[qidx]] is,
    and its rows are one row per [keyboard.add] call: the answer buttons
    in choice order, then "Get Hint", then "Quit Game". *)

From S2P Require Import Prelude PyBuiltins.
Import Py.

Module Questions.

(** A quiz item: the dict with keys "q", "choices", "answer_index",
    "hint". *)
Record question := Question {
  q : string;
  choices : list string;
  answer_index : Z;
  hint : string
}.

Definition QUESTIONS : list question := [
  Question "A static radio hums a number: 77. What do you do?"
    ["Ignore it"; "Tune to frequency 77.7"; "Smash the radio"; "Record it"]
    1 "Some frequencies like to repeat...";
  Question "Three doors: one marked with a triangle, one with a circle, one with a square. Which opens?"
    ["Triangle"; "Circle"; "Square"]
    2 "Think about corners vs curves.";
  Question "A whisper says: 'Reverse 1223 then add 1'. What is the result?"
    ["3222"; "3224"; "3223"; "1233"]
    1 "Reverse first, then math.";
  Question "You find a torn map with three X's. Which X glows faintly?"
    ["Top-left"; "Center"; "Bottom-right"]
    2 "When in doubt, follow the corner."
]%string.

#[global] Instance question_inhabited : Inhabited question :=
  populate (Question "" [] 0 "").

(** [len(QUESTIONS)], the bound of every [random.randrange] call. *)
Definition n_questions : Z := Z.of_nat (length QUESTIONS).

(** ** The inline keyboard *)

(** [types.InlineKeyboardButton(text=..., callback_data=...)] *)
Record button := Button { btn_text : string; callback_data : string }.

(** [types.InlineKeyboardMarkup]: its [inline_keyboard] rows.  Each
    [keyboard.add(b)] call with one button appends a row [[b]]
    (aiogram packs the arguments of one call in rows of [row_width]). *)
Definition keyboard := list (list button).

Definition kb_add (kb : keyboard) (b : button) : keyboard := kb ++ [[b]].

(** [f"answer|{qidx}|{i}"], [f"hint|{qidx}"] *)
Definition answer_data (qidx i : Z) : string :=
  "answer|" +:+ py_str qidx +:+ "|" +:+ py_str i.

Definition hint_data (qidx : Z) : string := "hint|" +:+ py_str qidx.

Definition quit_data : string := "quit".

(** [for i, choice in enumerate(q["choices"]): keyboard.add(...)] *)
Definition answer_buttons (qidx : Z) (cs : list string) : list button :=
  imap (fun i choice => Button choice (answer_data qidx (Z.of_nat i))) cs.

Definition question_kb (qidx : Z) : option keyboard :=
  x ← py_index QUESTIONS qidx;
  let kb := foldl kb_add [] (answer_buttons qidx (choices x)) in
  let kb := kb_add kb (Button "Get Hint" (hint_data qidx)) in
  Some (kb_add kb (Button "Quit Game" quit_data)).

(** A valid question index: the ones [random.randrange(len(QUESTIONS))]
    returns. *)
Definition valid_qidx (qidx : Z) : Prop := 0 <= qidx < n_questions.

(** ** Lemmas *)

Lemma n_questions_eq : n_questions = 4.
Proof. reflexivity. Qed.

Lemma foldl_kb_add (kb : keyboard) (bs : list button) :
  foldl kb_add kb bs = kb ++ map (fun b => [b]) bs.
Proof.
  revert kb. induction bs as [|b bs IH]; intros kb; simpl.
  - by rewrite app_nil_r.
  - rewrite IH. unfold kb_add. by rewrite <- app_assoc.
Qed.

Lemma valid_qidx_lookup (qidx : Z) :
  valid_qidx qidx -> exists x, py_index QUESTIONS qidx = Some x /\
    QUESTIONS !! Z.to_nat qidx = Some x.
Proof.
  unfold valid_qidx. intros Hq. rewrite py_index_nonneg by lia.
  destruct (lookup_Z_lt QUESTIONS qidx) as [x Hx]; [done|]. eauto.
Qed.

Lemma question_kb_defined (qidx : Z) (x : question) :
  py_index QUESTIONS qidx = Some x -> is_Some (question_kb qidx).
Proof. intros Hx. unfold question_kb. rewrite Hx. by eexists. Qed.

(** [QUESTIONS[qidx]] for a valid index, as a total lookup. *)
Lemma py_index_valid (qidx : Z) :
  0 <= qidx < n_questions ->
  py_index QUESTIONS qidx = Some (QUESTIONS !!! Z.to_nat qidx).
Proof.
  intros Hq. rewrite py_index_nonneg by lia.
  apply list_lookup_lookup_total_lt. unfold n_questions in Hq. lia.
Qed.

(** [QUESTIONS[qidx]] for a negative index counts from the end. *)
Lemma py_index_negative (qidx : Z) :
  - n_questions <= qidx < 0 ->
  py_index QUESTIONS qidx = Some (QUESTIONS !!! Z.to_nat (qidx + n_questions)).
Proof.
  intros Hq. rewrite py_index_neg by lia. unfold n_questions in *.
  destruct (Z.ltb_spec (qidx + Z.of_nat (length QUESTIONS)) 0); [lia|].
  apply list_lookup_lookup_total_lt. lia.
Qed.

End Questions.
