(* ===== verification/Callback.v ===== *)
(** Callback data: what the dispatcher and the callback handlers of
    src/bot_aiogram.py do with [call.data].  The three filters of the
    [callback_query_handler] decorators (lines 107, 131, 139) and aiogram's
    first-match routing in registration order; the parsing prefix of
    [process_answer] (lines 109-110) and [process_hint] (lines 141-142);
    the typed payload of the spec's design notes with the encoding the
    keyboard uses.  Theorems: decoding inverts encoding for every payload,
    and every button [question_kb] builds decodes to the payload it was
    built for. *)

From S2P Require Import Prelude PyBuiltins Questions.
Import Py Questions.

Module Callback.

(** ** Filters and routing *)

(** [lambda c: c.data and c.data.startswith("answer|")]; [None] is a
    callback query without data, and the empty string is falsy. *)
Definition answer_filter (data : option string) : bool :=
  match data with
  | Some d => negb (String.eqb d "") && py_startswith d "answer|"
  | None => false
  end.

(** [lambda c: c.data == "quit"] *)
Definition quit_filter (data : option string) : bool :=
  match data with
  | Some d => String.eqb d "quit"
  | None => false
  end.

(** [lambda c: c.data and c.data.startswith("hint|")] *)
Definition hint_filter (data : option string) : bool :=
  match data with
  | Some d => negb (String.eqb d "") && py_startswith d "hint|"
  | None => false
  end.

Inductive route := RAnswer | RQuit | RHint.

#[global] Instance route_eq_dec : EqDecision route.
Proof. solve_decision. Defined.

(** The dispatcher tries the callback handlers in the order they were
    registered and runs the first whose filter accepts; none: the update
    is dropped. *)
Definition route_callback (data : option string) : option route :=
  if answer_filter data then Some RAnswer
  else if quit_filter data then Some RQuit
  else if hint_filter data then Some RHint
  else None.

(** ** Parsing in the handlers *)

(** [_, qidx_s, choice_s = call.data.split("|")];
    [qidx = int(qidx_s); choice = int(choice_s)].  Unpacking a list of
    another length, or [int] of a bad field, raises [ValueError]. *)
Definition parse_answer (data : string) : exn + (Z * Z) :=
  match py_split "|" data with
  | [_; qidx_s; choice_s] =>
      match py_int qidx_s, py_int choice_s with
      | Some qidx, Some choice => inr (qidx, choice)
      | _, _ => inl ValueError
      end
  | _ => inl ValueError
  end.

(** [_, qidx_s = call.data.split("|")]; [qidx = int(qidx_s)] *)
Definition parse_hint (data : string) : exn + Z :=
  match py_split "|" data with
  | [_; qidx_s] =>
      match py_int qidx_s with
      | Some qidx => inr qidx
      | None => inl ValueError
      end
  | _ => inl ValueError
  end.

(** ** The typed payload (spec, section 3 and design notes) *)

Inductive payload :=
| PAnswer (qidx choice : Z)
| PHint (qidx : Z)
| PQuit.

#[global] Instance payload_eq_dec : EqDecision payload.
Proof. solve_decision. Defined.

(** The encoding [question_kb] writes into [callback_data]. *)
Definition encode (p : payload) : string :=
  match p with
  | PAnswer qidx choice => answer_data qidx choice
  | PHint qidx => hint_data qidx
  | PQuit => quit_data
  end.

(** What the dispatcher and the chosen handler's parsing read back from
    [call.data]: [None] when no handler accepts the data or its parsing
    raises. *)
Definition decode (data : option string) : option payload :=
  match route_callback data, data with
  | Some RAnswer, Some d =>
      match parse_answer d with inr (qi, c) => Some (PAnswer qi c) | inl _ => None end
  | Some RHint, Some d =>
      match parse_hint d with inr qi => Some (PHint qi) | inl _ => None end
  | Some RQuit, _ => Some PQuit
  | _, _ => None
  end.

(** ** Lemmas on the encoding *)

Lemma split_answer_fields (f1 f2 : string) :
  has_char "|" f1 = false -> has_char "|" f2 = false ->
  py_split "|" ("answer|" +:+ f1 +:+ "|" +:+ f2) = ["answer"; f1; f2]%string.
Proof.
  intros H1 H2. change ("answer|" +:+ ?x) with ("answer" +:+ String "|" x).
  rewrite py_split_app by reflexivity.
  change ("|" +:+ ?x) with (String "|" x).
  rewrite py_split_app by done. by rewrite py_split_no_sep.
Qed.

Lemma split_answer_data (qidx choice : Z) :
  py_split "|" (answer_data qidx choice) =
    ["answer"; py_str qidx; py_str choice]%string.
Proof. apply split_answer_fields; apply has_char_py_str. Qed.

Lemma split_hint_data (qidx : Z) :
  py_split "|" (hint_data qidx) = ["hint"; py_str qidx]%string.
Proof.
  unfold hint_data. change ("hint|" +:+ ?x) with ("hint" +:+ String "|" x).
  rewrite py_split_app by reflexivity.
  by rewrite py_split_no_sep by apply has_char_py_str.
Qed.

Lemma route_answer_prefix (rest : string) :
  route_callback (Some ("answer|" +:+ rest)) = Some RAnswer.
Proof. unfold route_callback, answer_filter. by rewrite py_startswith_app. Qed.

Lemma route_answer_data (qidx choice : Z) :
  route_callback (Some (answer_data qidx choice)) = Some RAnswer.
Proof. apply route_answer_prefix. Qed.

Lemma route_hint_data (qidx : Z) :
  route_callback (Some (hint_data qidx)) = Some RHint.
Proof.
  unfold route_callback, answer_filter, quit_filter, hint_filter, hint_data.
  by rewrite py_startswith_app.
Qed.

Lemma parse_answer_data (qidx choice : Z) :
  parse_answer (answer_data qidx choice) = inr (qidx, choice).
Proof. unfold parse_answer. by rewrite split_answer_data, !py_int_py_str. Qed.

(** [int] strips whitespace, so fields padded with whitespace parse to
    the same indices. *)
Lemma parse_answer_padded (qi c : Z) (w1 w2 w3 w4 : string) :
  py_blank w1 = true -> py_blank w2 = true -> py_blank w3 = true -> py_blank w4 = true ->
  parse_answer ("answer|" +:+ (w1 +:+ py_str qi +:+ w2) +:+ "|" +:+ (w3 +:+ py_str c +:+ w4)) =
    inr (qi, c).
Proof.
  intros H1 H2 H3 H4. unfold parse_answer.
  rewrite split_answer_fields; rewrite ?has_char_app, ?has_char_py_str,
    ?(has_char_blank w1 H1), ?(has_char_blank w2 H2), ?(has_char_blank w3 H3),
    ?(has_char_blank w4 H4); try done.
  by rewrite !py_int_padded.
Qed.

Lemma parse_hint_data (qidx : Z) : parse_hint (hint_data qidx) = inr qidx.
Proof. unfold parse_hint. by rewrite split_hint_data, py_int_py_str. Qed.

#[export] Hint Rewrite split_answer_data split_hint_data route_answer_data
  route_hint_data py_int_py_str : bot.

(** ** Round trips *)

(** Decoding inverts encoding: the string-typed callbacks carry the
    spec's tagged variant. *)
Lemma decode_encode (p : payload) : decode (Some (encode p)) = Some p.
Proof.
  destruct p as [qi c|qi|]; unfold decode, encode.
  - by rewrite route_answer_data, parse_answer_data.
  - by rewrite route_hint_data, parse_hint_data.
  - reflexivity.
Qed.

Lemma answer_buttons_decode (qidx : Z) (cs : list string) :
  (fun b => decode (Some (callback_data b))) <$> answer_buttons qidx cs =
  (fun i => Some (PAnswer qidx (Z.of_nat i))) <$> seq 0 (length cs).
Proof.
  unfold answer_buttons. rewrite fmap_imap, <- imap_seq_0.
  apply imap_ext. intros i c _. apply (decode_encode (PAnswer qidx (Z.of_nat i))).
Qed.

(** C14: for an index where [QUESTIONS[qidx]] exists, [question_kb]
    builds one button per row, and its buttons decode, in order, to the
    answers [0 .. len(choices)-1] of that question, its hint, and quit. *)
Theorem question_kb_decode (qidx : Z) (x : question) :
  py_index QUESTIONS qidx = Some x ->
  exists kb, question_kb qidx = Some kb /\
    Forall (fun row => length row = 1%nat) kb /\
    (fun b => decode (Some (callback_data b))) <$> concat kb =
      ((fun i => Some (PAnswer qidx (Z.of_nat i))) <$> seq 0 (length (choices x)))
      ++ [Some (PHint qidx); Some PQuit].
Proof.
  intros Hx. unfold question_kb. rewrite Hx. simpl. eexists; split; [done|].
  unfold kb_add. rewrite foldl_kb_add, <- !app_assoc.
  change ([[?h]] ++ [[?q]]) with ((fun b : button => [b]) <$> [h; q]).
  rewrite <- fmap_app, app_nil_l. split; [apply Forall_singletons|].
  rewrite concat_singletons, fmap_app, answer_buttons_decode. f_equal.
  change (?f <$> [?h; ?q])
    with [decode (Some (encode (PHint qidx))); decode (Some (encode PQuit))].
  by rewrite !decode_encode.
Qed.

Lemma question_kb_decode_witness :
  exists x, py_index QUESTIONS 1 = Some x /\
  exists kb, question_kb 1 = Some kb /\
    Forall (fun row => length row = 1%nat) kb /\
    (fun b => decode (Some (callback_data b))) <$> concat kb =
      ((fun i => Some (PAnswer 1 (Z.of_nat i))) <$> seq 0 (length (choices x)))
      ++ [Some (PHint 1); Some PQuit].
Proof.
  eexists. split; [reflexivity|]. apply question_kb_decode. reflexivity.
Defined.

End Callback.
