(* ===== verification/Store.v ===== *)
(** The session store: [user_state = {}] of src/bot_aiogram.py (line 34),
    a dict from Telegram user id to a dict [{"score": int, "qidx": int |
    None}].  It is a stdpp [gmap Z session]; the dictionary operations the
    handlers perform are definitions here ([get] with a default,
    [setdefault], [in], [del], item assignment, and the in-place updates
    [st["score"] += d], [st["qidx"] = v] through the alias [st]).  The
    spec's store contract (section 4.2: get, set, delete, mutateScore) is
    the type class [SessionStore], of which the dictionary is an
    instance; [Game] writes the spec's game step against it. *)

From S2P Require Import Prelude PyBuiltins.
Import Py.

Module Store.

(** The per-user dict.  [qidx] is [None] for the session [setdefault]
    creates in [process_answer] ([{"score": 0, "qidx": None}]). *)
Record session := Session { score : Z; qidx : option Z }.

#[global] Instance session_eq_dec : EqDecision session.
Proof. solve_decision. Defined.

Abbreviation store := (gmap Z session).

(** [user_state.get(user, default)] *)
Definition dict_get (m : store) (user : Z) (default : session) : session :=
  match m !! user with Some st => st | None => default end.

(** [user in user_state] *)
Definition dict_contains (m : store) (user : Z) : bool :=
  bool_decide (is_Some (m !! user)).

(** [user_state[user] = st] *)
Definition dict_set (m : store) (user : Z) (st : session) : store :=
  <[user := st]> m.

(** [del user_state[user]]: [KeyError] when the key is absent. *)
Definition dict_del (m : store) (user : Z) : exn + store :=
  if dict_contains m user then inr (delete user m) else inl KeyError.

(** [user_state.setdefault(user, default)]: the stored dict, inserting
    [default] first when the key is absent. *)
Definition dict_setdefault (m : store) (user : Z) (default : session)
  : session * store :=
  match m !! user with
  | Some st => (st, m)
  | None => (default, <[user := default]> m)
  end.

(** [st["score"] += d] where [st] is the dict stored under [user]: the
    alias makes the update visible in [user_state]. *)
Definition add_score (m : store) (user : Z) (d : Z) : store :=
  alter (fun st => Session (score st + d) (qidx st)) user m.

(** [st["qidx"] = v] through the same alias. *)
Definition set_qidx (m : store) (user : Z) (v : Z) : store :=
  alter (fun st => Session (score st) (Some v)) user m.

(** ** The store contract of the spec (section 4.2) *)

Class SessionStore (M : Type) := {
  ss_empty : M;
  ss_get : M -> Z -> option session;
  ss_set : M -> Z -> session -> M;
  ss_delete : M -> Z -> M;
  (** creates [{score: 0}] when absent, adds [delta], returns the score *)
  ss_mutate_score : M -> Z -> Z -> Z * M
}.

(** [mutateScore] as [process_answer] performs it: [setdefault] with
    [{"score": 0, "qidx": None}], then [st["score"] += delta]. *)
Definition dict_mutate_score (m : store) (user delta : Z) : Z * store :=
  let '(st, m') := dict_setdefault m user (Session 0 None) in
  (score st + delta, add_score m' user delta).

#[global] Instance dict_store : SessionStore store := {
  ss_empty := ∅;
  ss_get m u := m !! u;
  ss_set := dict_set;
  ss_delete m u := delete u m;
  ss_mutate_score := dict_mutate_score
}.

(** ** Lookup lemmas of the dictionary operations *)

Section DictLemmas.
Context (m : store) (u v : Z).

Lemma lookup_dict_set_eq st : dict_set m u st !! u = Some st.
Proof. apply lookup_insert_eq. Qed.

Lemma lookup_dict_set_ne st : u <> v -> dict_set m u st !! v = m !! v.
Proof. apply lookup_insert_ne. Qed.

Lemma lookup_add_score d :
  add_score m u d !! v =
    if decide (u = v) then (fun st => Session (score st + d) (qidx st)) <$> m !! v
    else m !! v.
Proof.
  unfold add_score. rewrite lookup_alter. by case_decide; subst.
Qed.

Lemma lookup_set_qidx w :
  set_qidx m u w !! v =
    if decide (u = v) then (fun st => Session (score st) (Some w)) <$> m !! v
    else m !! v.
Proof.
  unfold set_qidx. rewrite lookup_alter. by case_decide; subst.
Qed.

Lemma dict_setdefault_lookup d :
  let '(st, m') := dict_setdefault m u d in
  m' !! u = Some st /\ (forall w, w <> u -> m' !! w = m !! w) /\
  st = match m !! u with Some st0 => st0 | None => d end.
Proof.
  unfold dict_setdefault. destruct (m !! u) as [st0|] eqn:E.
  - done.
  - split_and!; [apply lookup_insert_eq | |done].
    intros w Hw. by apply lookup_insert_ne.
Qed.

Lemma dict_contains_spec : dict_contains m u = true <-> is_Some (m !! u).
Proof. unfold dict_contains. apply bool_decide_eq_true. Qed.

Lemma dict_contains_false : dict_contains m u = false <-> m !! u = None.
Proof.
  unfold dict_contains. rewrite bool_decide_eq_false.
  split; [by destruct (m !! u); [intros []; eauto|] | intros ->; by intros []].
Qed.

Lemma dict_del_lookup m' : dict_del m u = inr m' ->
  m' !! u = None /\ forall w, w <> u -> m' !! w = m !! w.
Proof.
  unfold dict_del. destruct (dict_contains m u); intros H; simplify_eq.
  split; [apply lookup_delete_eq|]. intros w Hw. by apply lookup_delete_ne.
Qed.
End DictLemmas.

Lemma dict_get_insert_eq (m : store) (u : Z) (st d : session) :
  dict_get (<[u := st]> m) u d = st.
Proof. unfold dict_get. by rewrite lookup_insert_eq. Qed.

#[export] Hint Rewrite lookup_dict_set_eq lookup_add_score lookup_set_qidx : bot.

Lemma dict_mutate_score_lookup (m : store) (u v d : Z) :
  (dict_mutate_score m u d).2 !! v =
    if decide (u = v) then
      Some (match m !! u with
            | Some st => Session (score st + d) (qidx st)
            | None => Session d None
            end)
    else m !! v.
Proof.
  unfold dict_mutate_score. pose proof (dict_setdefault_lookup m u (Session 0 None)) as Hs.
  destruct (dict_setdefault m u (Session 0 None)) as [st m'] eqn:E.
  destruct Hs as (Hu & Hw & ->). simpl. rewrite lookup_add_score.
  case_decide; subst.
  - rewrite Hu. by destruct (m !! v).
  - by apply Hw.
Qed.

End Store.
