(* ===== verification/Proc.v ===== *)
(** Handlers as coroutines.  An aiogram handler is an [async def]: it
    reads and writes [user_state], draws random numbers and writes log
    lines synchronously, and suspends at each [await] of an outbound
    Telegram call, which completes or raises.  [proc A] is the finite tree
    of these actions; [bind] sequences two of them, [try_except] is
    Python's [try]/[except] over a body, and [await_] raises the
    exception an awaited call fails with.  [run] executes a tree against
    an oracle of random draws and call outcomes and records the calls in a
    trace.  [sync], [passive] and [atomic] classify trees by where their
    store accesses lie relative to their first [await]. *)

From S2P Require Import Prelude PyBuiltins Questions Store.
Import Py Questions Store.

Module Proc.

(** ** Outbound calls and their outcomes *)

Inductive call :=
| Reply (text : string) (markup : option keyboard)     (* message.reply *)
| AnswerCallback (text : string) (show_alert : bool)   (* call.answer *)
| EditText (text : string) (markup : option keyboard)  (* call.message.edit_text *)
| SetShortDescription (text : string)   (* bot.set_my_short_description *)
| SetDescription (text : string).       (* bot.set_my_description *)

Inductive outcome := Done | Failed (e : exn).

Inductive level := Info | Warning.

(** ** Coroutine trees *)

Inductive proc (A : Type) : Type :=
| Ret (a : A)
| Raise (e : exn)
| Get (k : store -> proc A)
| Put (m : store) (k : proc A)
| Rand (n : Z) (k : Z -> proc A)
| Log (lv : level) (msg : string) (arg : option exn) (k : proc A)
| Await (c : call) (k : outcome -> proc A).

Arguments Ret {A} a.
Arguments Raise {A} e.
Arguments Get {A} k.
Arguments Put {A} m k.
Arguments Rand {A} n k.
Arguments Log {A} lv msg arg k.
Arguments Await {A} c k.

Fixpoint bind {A B} (p : proc A) (f : A -> proc B) : proc B :=
  match p with
  | Ret a => f a
  | Raise e => Raise e
  | Get k => Get (fun m => bind (k m) f)
  | Put m k => Put m (bind k f)
  | Rand n k => Rand n (fun r => bind (k r) f)
  | Log lv s a k => Log lv s a (bind k f)
  | Await c k => Await c (fun o => bind (k o) f)
  end.

#[global] Instance proc_ret : MRet proc := @Ret.
#[global] Instance proc_bind : MBind proc := fun A B f p => bind p f.

(** [try: body except ...: handler]; the handler decides which
    exceptions it catches and re-raises the others. *)
Fixpoint try_except {A} (p : proc A) (h : exn -> proc A) : proc A :=
  match p with
  | Ret a => Ret a
  | Raise e => h e
  | Get k => Get (fun m => try_except (k m) h)
  | Put m k => Put m (try_except k h)
  | Rand n k => Rand n (fun r => try_except (k r) h)
  | Log lv s a k => Log lv s a (try_except k h)
  | Await c k => Await c (fun o => try_except (k o) h)
  end.

(** ** Primitive actions *)

Definition get_store : proc store := Get Ret.
Definition modify (f : store -> store) : proc unit := Get (fun m => Put (f m) (Ret tt)).
Definition randrange (n : Z) : proc Z := Rand n Ret.
Definition log (lv : level) (msg : string) (arg : option exn) : proc unit :=
  Log lv msg arg (Ret tt).

(** [await c]: the call either completes or raises its exception in the
    awaiting coroutine. *)
Definition await_ (c : call) : proc unit :=
  Await c (fun o => match o with Done => Ret tt | Failed e => Raise e end).

(** Raising the exception of a fallible pure step ([int], indexing). *)
Definition lift {A} (r : exn + A) : proc A :=
  match r with inl e => Raise e | inr a => Ret a end.

Definition lift_index {A} (o : option A) : proc A :=
  match o with Some a => Ret a | None => Raise IndexError end.

(** ** Sequential execution against an oracle *)

Inductive event :=
| EvCall (c : call) (o : outcome)
| EvLog (lv : level) (msg : string) (arg : option exn).

Record result (A : Type) := Result {
  res : exn + A;
  final : store;
  trace : list event;
  rest_draws : list Z;
  rest_outcomes : list outcome
}.
Arguments Result {A}.
Arguments res {A}.
Arguments final {A}.
Arguments trace {A}.
Arguments rest_draws {A}.
Arguments rest_outcomes {A}.

(** [random.randrange(n)]: [ValueError] on an empty range, otherwise the
    next draw of the oracle reduced into [[0, n)]. *)
Definition draw (n : Z) (ds : list Z) : Z := (hd 0 ds) mod n.

Definition push {A} (ev : event) (r : result A) : result A :=
  Result (res r) (final r) (ev :: trace r) (rest_draws r) (rest_outcomes r).

Fixpoint run {A} (p : proc A) (m : store) (ds : list Z) (os : list outcome)
  : result A :=
  match p with
  | Ret a => Result (inr a) m [] ds os
  | Raise e => Result (inl e) m [] ds os
  | Get k => run (k m) m ds os
  | Put m' k => run k m' ds os
  | Rand n k =>
      if n <=? 0 then Result (inl ValueError) m [] ds os
      else run (k (draw n ds)) m (tl ds) os
  | Log lv s a k => push (EvLog lv s a) (run k m ds os)
  | Await c k =>
      let o := hd Done os in push (EvCall c o) (run (k o) m ds (tl os))
  end.

(** The result of an awaited call's outcome when nothing follows it. *)
Definition outcome_res (o : outcome) : exn + unit :=
  match o with Done => inr tt | Failed e => inl e end.

(** ** Where the store accesses lie *)

(** [passive p]: [p] neither touches the store nor draws: only calls,
    log lines, results and exceptions. *)
Inductive passive {A} : proc A -> Prop :=
| passive_ret a : passive (Ret a)
| passive_raise e : passive (Raise e)
| passive_log lv s a k : passive k -> passive (Log lv s a k)
| passive_await c k : (forall o, passive (k o)) -> passive (Await c k).

(** [sync p]: [p] never suspends: it runs to its end in one go. *)
Inductive sync {A} : proc A -> Prop :=
| sync_ret a : sync (Ret a)
| sync_raise e : sync (Raise e)
| sync_get k : (forall m, sync (k m)) -> sync (Get k)
| sync_put m k : sync k -> sync (Put m k)
| sync_rand n k : (forall r, sync (k r)) -> sync (Rand n k)
| sync_log lv s a k : sync k -> sync (Log lv s a k).

(** [atomic p]: every store access and draw of [p] happens before its
    first suspension; after it, [p] is passive. *)
Inductive atomic {A} : proc A -> Prop :=
| atomic_ret a : atomic (Ret a)
| atomic_raise e : atomic (Raise e)
| atomic_get k : (forall m, atomic (k m)) -> atomic (Get k)
| atomic_put m k : atomic k -> atomic (Put m k)
| atomic_rand n k : (forall r, atomic (k r)) -> atomic (Rand n k)
| atomic_log lv s a k : atomic k -> atomic (Log lv s a k)
| atomic_await c k : (forall o, passive (k o)) -> atomic (Await c k).

Create HintDb proc.
#[export] Hint Constructors passive sync atomic : proc.

Lemma passive_atomic {A} (p : proc A) : passive p -> atomic p.
Proof. induction 1; eauto with proc. Qed.

Lemma sync_atomic {A} (p : proc A) : sync p -> atomic p.
Proof. induction 1; eauto with proc. Qed.

Section Classes.
Context {A B : Type}.

Lemma passive_bind (p : proc A) (f : A -> proc B) :
  passive p -> (forall a, passive (f a)) -> passive (bind p f).
Proof. induction 1; intros; simpl; eauto with proc. Qed.

Lemma sync_bind (p : proc A) (f : A -> proc B) :
  sync p -> (forall a, sync (f a)) -> sync (bind p f).
Proof. induction 1; intros; simpl; eauto with proc. Qed.

Lemma atomic_bind_sync (p : proc A) (f : A -> proc B) :
  sync p -> (forall a, atomic (f a)) -> atomic (bind p f).
Proof. induction 1; intros; simpl; eauto with proc. Qed.

Lemma atomic_bind_passive (p : proc A) (f : A -> proc B) :
  atomic p -> (forall a, passive (f a)) -> atomic (bind p f).
Proof.
  induction 1 as [a| | | | | |c k Hk]; intros Hf; simpl; eauto with proc.
  - by apply passive_atomic.
  - constructor. intros o. by apply passive_bind.
Qed.

Lemma passive_try (p : proc A) (h : exn -> proc A) :
  passive p -> (forall e, passive (h e)) -> passive (try_except p h).
Proof. induction 1; intros; simpl; eauto with proc. Qed.
End Classes.

Lemma passive_await_ c : passive (await_ c).
Proof. constructor. intros []; constructor. Qed.

Lemma passive_lift {A} (r : exn + A) : passive (lift r).
Proof. destruct r; constructor. Qed.

Lemma passive_lift_index {A} (o : option A) : passive (lift_index o).
Proof. destruct o; constructor. Qed.

Lemma sync_lift {A} (r : exn + A) : sync (lift r).
Proof. destruct r; constructor. Qed.

Lemma sync_lift_index {A} (o : option A) : sync (lift_index o).
Proof. destruct o; constructor. Qed.

Lemma sync_modify f : sync (modify f).
Proof. repeat constructor. Qed.

Lemma sync_get_store : sync get_store.
Proof. repeat constructor. Qed.

Lemma sync_randrange n : sync (randrange n).
Proof. repeat constructor. Qed.

#[export] Hint Resolve passive_await_ passive_lift passive_lift_index sync_lift
  sync_lift_index sync_modify sync_get_store sync_randrange passive_bind
  sync_bind passive_try passive_atomic sync_atomic : proc.

Lemma draw_range (n : Z) (ds : list Z) : 0 < n -> 0 <= draw n ds < n.
Proof. intros Hn. unfold draw. apply Z.mod_pos_bound, Hn. Qed.

(** ** Running a sequence *)

Lemma run_bind {A B} (p : proc A) (f : A -> proc B) m ds os :
  run (bind p f) m ds os =
    let r := run p m ds os in
    match res r with
    | inl e => Result (inl e) (final r) (trace r) (rest_draws r) (rest_outcomes r)
    | inr a =>
        let r' := run (f a) (final r) (rest_draws r) (rest_outcomes r) in
        Result (res r') (final r') (trace r ++ trace r') (rest_draws r')
          (rest_outcomes r')
    end.
Proof.
  revert m ds os. induction p as [a|e|k IH|m' k IH|n k IH|lv s a k IH|c k IH];
    intros m ds os; simpl.
  - by destruct (run (f a) m ds os).
  - done.
  - apply IH.
  - apply IH.
  - destruct (n <=? 0); [done|apply IH].
  - rewrite IH. by destruct (run k m ds os) as [[]].
  - rewrite IH. by destruct (run (k (hd Done os)) m ds (tl os)) as [[]].
Qed.

(** A passive tree leaves the store and the draws as they are. *)
Lemma run_passive {A} (p : proc A) m ds os :
  passive p -> final (run p m ds os) = m /\ rest_draws (run p m ds os) = ds.
Proof.
  intros Hp. revert os. induction Hp; intros os; simpl; auto.
Qed.

Lemma final_passive {A} (p : proc A) m ds os : passive p -> final (run p m ds os) = m.
Proof. intros Hp. by destruct (run_passive p m ds os Hp). Qed.

End Proc.
