(* ===== verification/Handlers.v ===== *)
(** The handlers of src/bot_aiogram.py (lines 72-144) as coroutine trees,
    each translated statement by statement: reads and writes of
    [user_state] are [Get]/[Put] through the dictionary operations of
    [Store], [random.randrange] is [randrange], [QUESTIONS[i]] is
    [lift_index (py_index QUESTIONS i)], each [await] of a Telegram call
    is [await_], and [process_answer]'s [try]/[except Exception] is
    [try_except].  [dispatch] is aiogram's choice of handler for an
    update: the message handlers by command in registration order, the
    callback handlers by their filters in registration order.  The
    theorems give each handler's effect on the store and the calls it
    makes, on every branch, errors included. *)

From S2P Require Import Prelude PyBuiltins Questions Callback Store Proc.
Import Py Questions Callback Store Proc.

Module Handlers.

(** ["\n"] *)
Definition nl : string := String (ascii_of_nat 10) EmptyString.

(** ** Texts *)

Definition start_text : string :=
  "👁️ Welcome to Strange Things Bot — the Upside Down quiz." +:+ nl +:+ nl +:+
  "Commands:" +:+ nl +:+
  "/play - Start a spooky round" +:+ nl +:+
  "/score - Show your score" +:+ nl +:+
  "/quit - Quit the current game" +:+ nl +:+ nl +:+
  "Be brave. Or be gone.".

Definition left_text : string := "🕯️ You have left the game. Come back if you dare.".
Definition no_game_text : string := "No active game. Use /play to begin.".
Definition correct_text : string := "✅ Correct! +10 points.".
Definition wrong_text (x : question) : string :=
  "❌ Wrong. -5 points. Hint: " +:+ hint x.
Definition ended_alert : string := "Game ended. Goodbye.".
Definition ended_text : string := "🕯️ Game ended. Use /play to start again.".

(** [f"{text}\n\nNext: {QUESTIONS[next_qidx]['q']}"] *)
Definition next_text (text : string) (x : question) : string :=
  text +:+ nl +:+ nl +:+ "Next: " +:+ q x.

(** ** Store actions of the handlers *)

(** [st = user_state.setdefault(user, default)] *)
Definition setdefault (user : Z) (d : session) : proc session :=
  Get (fun m => let '(st, m') := dict_setdefault m user d in Put m' (Ret st)).

(** [del user_state[user]] *)
Definition del_item (user : Z) : proc unit :=
  Get (fun m => match dict_del m user with
                | inl e => Raise e
                | inr m' => Put m' (Ret tt)
                end).

(** ** Message handlers *)

(** [cmd_start], lines 72-82 *)
Definition cmd_start (user : Z) : proc unit :=
  await_ (Reply start_text None).

(** [cmd_play], lines 84-90 *)
Definition cmd_play (user : Z) : proc unit :=
  qidx ← randrange n_questions;
  modify (fun m => dict_set m user (Session 0 (Some qidx)));;
  x ← lift_index (py_index QUESTIONS qidx);
  kb ← lift_index (question_kb qidx);
  await_ (Reply ("🕹️ " +:+ q x) (Some kb)).

(** [cmd_score], lines 92-96 *)
Definition cmd_score (user : Z) : proc unit :=
  m ← get_store;
  let st := dict_get m user (Session 0 None) in
  await_ (Reply ("🏆 Your score: " +:+ py_str (score st)) None).

(** [cmd_quit], lines 98-105 *)
Definition cmd_quit (user : Z) : proc unit :=
  m ← get_store;
  if dict_contains m user then
    del_item user;;
    await_ (Reply left_text None)
  else
    await_ (Reply no_game_text None).

(** ** Callback-query handlers *)

(** The reply of [process_answer]: the edit of the question message, or
    on any exception the fallback reply (lines 124-129). *)
Definition answer_reply (text : string) (next_qidx : Z) : proc unit :=
  try_except
    (await_ (AnswerCallback text true);;
     nx ← lift_index (py_index QUESTIONS next_qidx);
     kb ← lift_index (question_kb next_qidx);
     await_ (EditText (next_text text nx) (Some kb)))
    (fun _ =>
     nx ← lift_index (py_index QUESTIONS next_qidx);
     kb ← lift_index (question_kb next_qidx);
     await_ (Reply (next_text text nx) (Some kb))).

(** [process_answer], lines 107-129 *)
Definition process_answer (user : Z) (data : string) : proc unit :=
  '(qidx, choice) ← lift (parse_answer data);
  x ← lift_index (py_index QUESTIONS qidx);
  _ ← setdefault user (Session 0 None);
  text ← (if bool_decide (choice = answer_index x) then
            modify (fun m => add_score m user 10);; mret correct_text
          else
            modify (fun m => add_score m user (-5));; mret (wrong_text x));
  next_qidx ← randrange n_questions;
  modify (fun m => set_qidx m user next_qidx);;
  answer_reply text next_qidx.

(** [process_quit], lines 131-137 *)
Definition process_quit (user : Z) : proc unit :=
  m ← get_store;
  (if dict_contains m user then del_item user else mret tt);;
  await_ (AnswerCallback ended_alert true);;
  await_ (EditText ended_text None).

(** [process_hint], lines 139-144 *)
Definition process_hint (user : Z) (data : string) : proc unit :=
  qidx ← lift (parse_hint data);
  x ← lift_index (py_index QUESTIONS qidx);
  await_ (AnswerCallback ("💡 Hint: " +:+ hint x) true).

(** ** Dispatch *)

(** An update as aiogram hands it to the handlers: a message whose command
    word aiogram extracted (without the leading '/'), or a callback query
    with its optional data; both carry [from_user.id]. *)
Inductive update :=
| MessageCmd (user : Z) (command : option string)
| CallbackQuery (user : Z) (data : option string).

(** [message.from_user.id] / [call.from_user.id] *)
Definition update_user (u : update) : Z :=
  match u with MessageCmd user _ => user | CallbackQuery user _ => user end.

(** [commands=[...]]: aiogram compares the command case-insensitively. *)
Definition command_filter (cmds : list string) (command : option string) : bool :=
  match command with
  | Some c => existsb (String.eqb (py_lower c)) cmds
  | None => false
  end.

Definition dispatch (u : update) : option (proc unit) :=
  match u with
  | MessageCmd user c =>
      if command_filter ["start"; "help"] c then Some (cmd_start user)
      else if command_filter ["play"] c then Some (cmd_play user)
      else if command_filter ["score"] c then Some (cmd_score user)
      else if command_filter ["quit"] c then Some (cmd_quit user)
      else None
  | CallbackQuery user data =>
      match route_callback data, data with
      | Some RAnswer, Some d => Some (process_answer user d)
      | Some RQuit, _ => Some (process_quit user)
      | Some RHint, Some d => Some (process_hint user d)
      | _, _ => None
      end
  end.

(** Handling one update in a store: an update no handler accepts leaves
    the store unchanged and makes no call. *)
Definition handle (u : update) (m : store) (ds : list Z) (os : list outcome)
  : result unit :=
  match dispatch u with
  | Some p => run p m ds os
  | None => Result (inr tt) m [] ds os
  end.

(** ** Functional behaviour of the message handlers *)

#[local] Arguments py_index : simpl never.
#[local] Arguments question_kb : simpl never.
#[local] Arguments draw : simpl never.

Lemma valid_draw (ds : list Z) :
  exists x kb, py_index QUESTIONS (draw n_questions ds) = Some x /\
    question_kb (draw n_questions ds) = Some kb.
Proof.
  destruct (valid_qidx_lookup (draw n_questions ds)) as (x & Hx & _).
  { apply draw_range. by rewrite n_questions_eq. }
  destruct (question_kb_defined _ _ Hx) as [kb Hkb]. eauto.
Qed.

Theorem cmd_play_spec (user : Z) (m : store) (ds : list Z) (os : list outcome) :
  exists x kb, py_index QUESTIONS (draw n_questions ds) = Some x /\
    question_kb (draw n_questions ds) = Some kb /\
    run (cmd_play user) m ds os =
      Result (outcome_res (hd Done os))
        (<[user := Session 0 (Some (draw n_questions ds))]> m)
        [EvCall (Reply ("🕹️ " +:+ q x) (Some kb)) (hd Done os)] (tl ds) (tl os).
Proof.
  destruct (valid_draw ds) as (x & kb & Hx & Hkb). exists x, kb.
  split_and!; [done|done|]. unfold cmd_play. simpl. rewrite Hx, Hkb.
  simpl. by destruct (hd Done os).
Qed.

Theorem cmd_score_spec (user : Z) (m : store) (ds : list Z) (os : list outcome) :
  run (cmd_score user) m ds os =
    Result (outcome_res (hd Done os)) m
      [EvCall (Reply ("🏆 Your score: " +:+
                      py_str (score (dict_get m user (Session 0 None)))) None)
              (hd Done os)] ds (tl os).
Proof. unfold cmd_score. simpl. by destruct (hd Done os). Qed.

Theorem cmd_quit_spec (user : Z) (m : store) (ds : list Z) (os : list outcome) :
  run (cmd_quit user) m ds os =
    if dict_contains m user then
      Result (outcome_res (hd Done os)) (delete user m)
        [EvCall (Reply left_text None) (hd Done os)] ds (tl os)
    else
      Result (outcome_res (hd Done os)) m
        [EvCall (Reply no_game_text None) (hd Done os)] ds (tl os).
Proof.
  unfold cmd_quit. simpl. destruct (dict_contains m user) eqn:E; simpl;
    [unfold dict_del; rewrite E; simpl|]; by destruct (hd Done os).
Qed.

(** ** Functional behaviour of the callback handlers *)

(** The acknowledgement, then the in-place edit; when either call raises,
    the fallback reply with the same text and keyboard.  An exception of
    the fallback itself propagates. *)
Theorem answer_reply_spec (text : string) (next : Z) (x : question) (kb : keyboard)
    (m : store) (ds : list Z) (os : list outcome) :
  py_index QUESTIONS next = Some x -> question_kb next = Some kb ->
  run (answer_reply text next) m ds os =
    let ack o := EvCall (AnswerCallback text true) o in
    let fallback o := EvCall (Reply (next_text text x) (Some kb)) o in
    match hd Done os with
    | Done =>
        match hd Done (tl os) with
        | Done =>
            Result (inr tt) m
              [ack Done; EvCall (EditText (next_text text x) (Some kb)) Done]
              ds (tl (tl os))
        | Failed e =>
            Result (outcome_res (hd Done (tl (tl os)))) m
              [ack Done; EvCall (EditText (next_text text x) (Some kb)) (Failed e);
               fallback (hd Done (tl (tl os)))] ds (tl (tl (tl os)))
        end
    | Failed e =>
        Result (outcome_res (hd Done (tl os))) m
          [ack (Failed e); fallback (hd Done (tl os))] ds (tl (tl os))
    end.
Proof.
  intros Hx Hkb. unfold answer_reply. rewrite Hx, Hkb. simpl.
  destruct (hd Done os) as [|e]; simpl;
    [destruct (hd Done (tl os)) as [|e']; simpl;
       [|destruct (hd Done (tl (tl os)))]
    |destruct (hd Done (tl os))]; done.
Qed.

#[local] Arguments answer_reply : simpl never.

(** The store after a parsed answer: [setdefault], the score update and
    the new question index, as one insertion. *)
Lemma answer_store (m : store) (user delta next : Z) :
  set_qidx (add_score (dict_setdefault m user (Session 0 None)).2 user delta) user next =
  <[user := Session (score (dict_get m user (Session 0 None)) + delta) (Some next)]> m.
Proof.
  apply map_eq. intros v. rewrite lookup_set_qidx, lookup_add_score.
  pose proof (dict_setdefault_lookup m user (Session 0 None)) as Hs.
  destruct (dict_setdefault m user (Session 0 None)) as [st m'].
  simpl in Hs. destruct Hs as (Hu & Hw & ->). simpl. unfold dict_get.
  case_decide; subst.
  - by rewrite lookup_insert_eq, Hu.
  - rewrite lookup_insert_ne by done. by apply Hw.
Qed.

Theorem process_answer_spec (user : Z) (data : string) (qi c : Z) (x : question)
    (m : store) (ds : list Z) (os : list outcome) :
  parse_answer data = inr (qi, c) -> py_index QUESTIONS qi = Some x ->
  run (process_answer user data) m ds os =
    run (answer_reply (if bool_decide (c = answer_index x) then correct_text
                       else wrong_text x) (draw n_questions ds))
      (<[user := Session (score (dict_get m user (Session 0 None)) +
                          (if bool_decide (c = answer_index x) then 10 else -5))
                         (Some (draw n_questions ds))]> m)
      (tl ds) os.
Proof.
  intros Hp Hx. rewrite <- answer_store.
  unfold process_answer. rewrite Hp. simpl. rewrite Hx. simpl.
  destruct (dict_setdefault m user (Session 0 None)) as [st m'].
  by case_bool_decide.
Qed.

Lemma passive_answer_reply text next : passive (answer_reply text next).
Proof. unfold answer_reply. eauto 10 with proc. Qed.

Lemma sync_setdefault user d : sync (setdefault user d).
Proof. constructor. intros m. destruct (dict_setdefault m user d). repeat constructor. Qed.

Lemma sync_del_item user : sync (del_item user).
Proof. constructor. intros m. destruct (dict_del m user); repeat constructor. Qed.

#[export] Hint Resolve passive_answer_reply sync_setdefault sync_del_item : proc.

Lemma passive_process_hint (user : Z) (data : string) :
  passive (process_hint user data).
Proof. unfold process_hint. eauto with proc. Qed.

Theorem process_quit_spec (user : Z) (m : store) (ds : list Z) (os : list outcome) :
  run (process_quit user) m ds os =
    match hd Done os with
    | Done =>
        Result (outcome_res (hd Done (tl os))) (delete user m)
          [EvCall (AnswerCallback ended_alert true) Done;
           EvCall (EditText ended_text None) (hd Done (tl os))] ds (tl (tl os))
    | Failed e =>
        Result (inl e) (delete user m)
          [EvCall (AnswerCallback ended_alert true) (Failed e)] ds (tl os)
    end.
Proof.
  unfold process_quit. simpl. destruct (dict_contains m user) eqn:E; simpl.
  - unfold dict_del. rewrite E. simpl.
    destruct (hd Done os); simpl; [destruct (hd Done (tl os))|]; done.
  - rewrite delete_id.
    2:{ destruct (m !! user) eqn:Hu; [|done].
        unfold dict_contains in E. rewrite Hu in E. by rewrite bool_decide_eq_true_2 in E. }
    destruct (hd Done os); simpl; [destruct (hd Done (tl os))|]; done.
Qed.

(** ** The properties of the handlers *)

(** C4: an answer that parses and names a question [x]: whatever the
    Telegram calls return, the user's session afterwards holds the old
    score (0 for a user without a session) plus 10 when the choice is
    [x]'s answer index and minus 5 otherwise, never clamped, and the
    freshly drawn next question; every other user's session is as
    before, and one random draw was consumed. *)
Theorem process_answer_scores (user : Z) (data : string) (qi c : Z) (x : question)
    (m : store) (ds : list Z) (os : list outcome) :
  parse_answer data = inr (qi, c) -> py_index QUESTIONS qi = Some x ->
  final (run (process_answer user data) m ds os) =
    <[user := Session (score (dict_get m user (Session 0 None)) +
                       (if bool_decide (c = answer_index x) then 10 else -5))
                      (Some (draw n_questions ds))]> m /\
  rest_draws (run (process_answer user data) m ds os) = tl ds /\
  0 <= draw n_questions ds < n_questions.
Proof.
  intros Hp Hx. rewrite (process_answer_spec user data qi c x) by done.
  destruct (valid_draw ds) as (nx & kb & Hnx & Hkb).
  rewrite (answer_reply_spec _ _ nx kb) by done.
  assert (0 <= draw n_questions ds < n_questions) as Hr
    by (apply draw_range; by rewrite n_questions_eq).
  split_and!; try lia; repeat case_match; done.
Qed.

Lemma process_answer_scores_witness :
  parse_answer "answer|1|0" = inr (1, 0) /\
  (exists x, py_index QUESTIONS 1 = Some x /\
    final (run (process_answer 7 "answer|1|0") ∅ [2] []) =
      <[7 := Session (0 + (if bool_decide (0 = answer_index x) then 10 else -5))
                     (Some (draw n_questions [2]))]> ∅).
Proof.
  split; [reflexivity|]. eexists. split; [reflexivity|].
  apply (process_answer_scores 7 "answer|1|0" 1 0); reflexivity.
Defined.

(** C5: /play draws a question index in [[0, len(QUESTIONS))], replaces
    the user's session by score 0 at that question (a reset: any earlier
    score is discarded) and replies with that question's prompt and its
    keyboard; other users are untouched. *)
Theorem cmd_play_resets (user : Z) (m : store) (ds : list Z) (os : list outcome) :
  let r := draw n_questions ds in
  0 <= r < n_questions /\
  final (run (cmd_play user) m ds os) = <[user := Session 0 (Some r)]> m /\
  exists x kb, QUESTIONS !! Z.to_nat r = Some x /\ question_kb r = Some kb /\
    trace (run (cmd_play user) m ds os) =
      [EvCall (Reply ("🕹️ " +:+ q x) (Some kb)) (hd Done os)].
Proof.
  intros r. destruct (cmd_play_spec user m ds os) as (x & kb & Hx & Hkb & ->).
  assert (0 <= r < n_questions) as Hr by (apply draw_range; by rewrite n_questions_eq).
  refine (conj Hr (conj eq_refl _)). exists x, kb. split_and!; [|done|done].
  by rewrite <- py_index_nonneg by lia.
Qed.

(** C9: the reply of [process_answer]: the acknowledgement, then the
    in-place edit of the question message; when the acknowledgement or
    the edit raises, the same text and keyboard are sent as a new reply,
    and an exception of that fallback reply propagates out of the
    handler.  The store is not touched. *)
Theorem answer_fallback (text : string) (next : Z) (x : question) (kb : keyboard)
    (m : store) (ds : list Z) (os : list outcome) :
  py_index QUESTIONS next = Some x -> question_kb next = Some kb ->
  let r := run (answer_reply text next) m ds os in
  final r = m /\
  match hd Done os, hd Done (tl os) with
  | Done, Done =>
      res r = inr tt /\
      trace r = [EvCall (AnswerCallback text true) Done;
                 EvCall (EditText (next_text text x) (Some kb)) Done]
  | Done, Failed e =>
      res r = outcome_res (hd Done (tl (tl os))) /\
      trace r = [EvCall (AnswerCallback text true) Done;
                 EvCall (EditText (next_text text x) (Some kb)) (Failed e);
                 EvCall (Reply (next_text text x) (Some kb)) (hd Done (tl (tl os)))]
  | Failed e, o2 =>
      res r = outcome_res o2 /\
      trace r = [EvCall (AnswerCallback text true) (Failed e);
                 EvCall (Reply (next_text text x) (Some kb)) o2]
  end.
Proof.
  intros Hx Hkb r. subst r. rewrite (answer_reply_spec text next x kb) by done.
  repeat case_match; done.
Qed.


(** C15: [process_hint] never changes [user_state] and draws nothing, for
    every payload and every outcome of its call; on a payload that parses
    to a question it shows that question's hint in an alert. *)
Theorem process_hint_pure (user : Z) (data : string) (m : store) (ds : list Z)
    (os : list outcome) :
  final (run (process_hint user data) m ds os) = m /\
  rest_draws (run (process_hint user data) m ds os) = ds /\
  forall qi x, parse_hint data = inr qi -> py_index QUESTIONS qi = Some x ->
    trace (run (process_hint user data) m ds os) =
      [EvCall (AnswerCallback ("💡 Hint: " +:+ hint x) true) (hd Done os)].
Proof.
  destruct (run_passive _ m ds os (passive_process_hint user data)) as [Hm Hd].
  split_and!; [done|done|]. intros qi x Hp Hx.
  unfold process_hint. rewrite Hp. simpl. rewrite Hx. simpl.
  destruct (hd Done os); reflexivity.
Qed.

(** C16: /quit deletes the user's session; it replies with the farewell
    when a session existed and with "No active game" otherwise, in which
    case the store is unchanged. *)
Theorem cmd_quit_removes (user : Z) (m : store) (ds : list Z) (os : list outcome) :
  final (run (cmd_quit user) m ds os) = delete user m /\
  final (run (cmd_quit user) m ds os) !! user = None /\
  (m !! user = None -> final (run (cmd_quit user) m ds os) = m) /\
  trace (run (cmd_quit user) m ds os) =
    [EvCall (Reply (if dict_contains m user then left_text else no_game_text) None)
            (hd Done os)].
Proof.
  rewrite cmd_quit_spec. destruct (dict_contains m user) eqn:E; simpl.
  - split_and!; [done|apply lookup_delete_eq| |done].
    intros Hu. apply dict_contains_spec in E. rewrite Hu in E. by destruct E.
  - assert (m !! user = None) as Hu.
    { destruct (m !! user) eqn:Hu; [|done].
      assert (dict_contains m user = true) by (apply dict_contains_spec; by rewrite Hu).
      congruence. }
    rewrite delete_id by done. split_and!; done.
Qed.

(** C17: the "Quit Game" button deletes the user's session whatever the
    outcome of its calls; unlike /quit it always answers "Game ended",
    whether or not a session existed, then edits the message to the ended
    state unless the acknowledgement raised. *)
Theorem process_quit_removes (user : Z) (m : store) (ds : list Z) (os : list outcome) :
  final (run (process_quit user) m ds os) = delete user m /\
  trace (run (process_quit user) m ds os) =
    EvCall (AnswerCallback ended_alert true) (hd Done os) ::
    match hd Done os with
    | Done => [EvCall (EditText ended_text None) (hd Done (tl os))]
    | Failed _ => []
    end.
Proof. rewrite process_quit_spec. by destruct (hd Done os). Qed.

(** C18: /score replies with the user's score, 0 when the user has no
    session, printed as Python prints an int (negative scores with a
    minus sign), and changes nothing. *)
Theorem cmd_score_reports (user : Z) (m : store) (ds : list Z) (os : list outcome) :
  final (run (cmd_score user) m ds os) = m /\
  trace (run (cmd_score user) m ds os) =
    [EvCall (Reply ("🏆 Your score: " +:+
       py_str (match m !! user with Some st => score st | None => 0 end)) None)
       (hd Done os)].
Proof. rewrite cmd_score_spec. unfold dict_get. by destruct (m !! user). Qed.

Lemma answer_fallback_witness :
  exists x kb, py_index QUESTIONS 2 = Some x /\ question_kb 2 = Some kb /\
    final (run (answer_reply correct_text 2) ∅ [] [Failed TelegramAPIError]) = ∅.
Proof.
  do 2 eexists. split; [reflexivity|]. split; [reflexivity|].
  exact (proj1 (answer_fallback correct_text 2 _ _ ∅ [] [Failed TelegramAPIError]
                  eq_refl eq_refl)).
Defined.


(** ** Dispatch *)

Lemma dispatch_answer_prefix (user : Z) (rest : string) :
  dispatch (CallbackQuery user (Some ("answer|" +:+ rest))) =
    Some (process_answer user ("answer|" +:+ rest)).
Proof. unfold dispatch. by rewrite route_answer_prefix. Qed.

(** [process_answer] reads its data only through the parsing. *)
Lemma process_answer_parse (user : Z) (d1 d2 : string) :
  parse_answer d1 = parse_answer d2 -> process_answer user d1 = process_answer user d2.
Proof. intros H. unfold process_answer. by rewrite H. Qed.

Theorem dispatch_encode (user : Z) (p : payload) :
  dispatch (CallbackQuery user (Some (encode p))) =
    Some (match p with
          | PAnswer _ _ => process_answer user (encode p)
          | PHint _ => process_hint user (encode p)
          | PQuit => process_quit user
          end).
Proof.
  destruct p; unfold dispatch, encode;
    [rewrite route_answer_data | rewrite route_hint_data | ]; done.
Qed.

(** C6: the data [question_kb] writes for a payload reaches, through
    aiogram's filters in registration order, the handler for that payload,
    and that handler's own parsing reads back exactly the payload's
    indices, whatever their value. *)
Theorem callback_roundtrip (user : Z) (p : payload) :
  match p with
  | PAnswer qi c =>
      dispatch (CallbackQuery user (Some (encode p))) =
        Some (process_answer user (encode p)) /\
      parse_answer (encode p) = inr (qi, c)
  | PHint qi =>
      dispatch (CallbackQuery user (Some (encode p))) =
        Some (process_hint user (encode p)) /\
      parse_hint (encode p) = inr qi
  | PQuit => dispatch (CallbackQuery user (Some (encode p))) = Some (process_quit user)
  end.
Proof.
  pose proof (dispatch_encode user p) as Hd.
  destruct p; simpl in *; rewrite ?parse_answer_data, ?parse_hint_data; done.
Qed.

End Handlers.
