(* ===== verification/Concurrency.v ===== *)
(** The asyncio event loop that runs the handlers.  aiogram creates a task
    per update; the loop runs a ready task until its next [await]
    suspends it (a slice), and a suspended task becomes ready again when
    its Telegram call completes, in any order the network chooses.  Tasks
    of the same user may therefore interleave.  A configuration holds
    [user_state], the tasks and the stream of random draws; [step] is one
    arrival, one slice or one completion, labelled.  The theorems: every
    handler is [atomic] (all its accesses to [user_state] and all its
    draws precede its first [await]), hence every interleaving leaves
    [user_state] and the draws exactly as running the started handlers
    one after the other, in the order of their first slices, would. *)

From S2P Require Import Prelude PyBuiltins Questions Callback Store Proc Handlers.
Import Py Questions Callback Store Proc Handlers.

Module Concurrency.

(** ** Slices *)

Inductive status :=
| Finished (r : exn + unit)
| Suspended (c : call) (k : outcome -> proc unit).

Record slice := Slice {
  sl_status : status;
  sl_store : store;
  sl_draws : list Z;
  sl_logs : list event
}.

(** Run a ready coroutine until it suspends at an [await] or ends. *)
Fixpoint run_slice (p : proc unit) (m : store) (ds : list Z) : slice :=
  match p with
  | Ret a => Slice (Finished (inr a)) m ds []
  | Raise e => Slice (Finished (inl e)) m ds []
  | Get k => run_slice (k m) m ds
  | Put m' k => run_slice k m' ds
  | Rand n k =>
      if n <=? 0 then Slice (Finished (inl ValueError)) m ds []
      else run_slice (k (draw n ds)) m (tl ds)
  | Log lv s a k =>
      let sl := run_slice k m ds in
      Slice (sl_status sl) (sl_store sl) (sl_draws sl) (EvLog lv s a :: sl_logs sl)
  | Await c k => Slice (Suspended c k) m ds []
  end.

(** ** Configurations and steps *)

Inductive task :=
| Fresh (u : update) (p : proc unit)     (* created for update [u], never run *)
| Resumed (p : proc unit)                (* its awaited call completed *)
| Waiting (c : call) (k : outcome -> proc unit)   (* suspended at [await c] *)
| Ended.

Record config := Config {
  cstore : store;
  ctasks : list task;
  cdraws : list Z
}.

Inductive label :=
| LArrive (u : update)
| LStart (u : update)
| LSlice
| LComplete (c : call) (o : outcome).

(** The task a slice leaves behind. *)
Definition after (st : status) : task :=
  match st with
  | Finished _ => Ended
  | Suspended c k => Waiting c k
  end.

Definition after_slice (cfg : config) (i : nat) (sl : slice) : config :=
  Config (sl_store sl) (<[i := after (sl_status sl)]> (ctasks cfg)) (sl_draws sl).

Inductive step : config -> label -> config -> Prop :=
| step_arrive cfg u p :
    dispatch u = Some p ->
    step cfg (LArrive u) (Config (cstore cfg) (ctasks cfg ++ [Fresh u p]) (cdraws cfg))
| step_start cfg i u p :
    ctasks cfg !! i = Some (Fresh u p) ->
    step cfg (LStart u) (after_slice cfg i (run_slice p (cstore cfg) (cdraws cfg)))
| step_resume cfg i p :
    ctasks cfg !! i = Some (Resumed p) ->
    step cfg LSlice (after_slice cfg i (run_slice p (cstore cfg) (cdraws cfg)))
| step_complete cfg i c k o :
    ctasks cfg !! i = Some (Waiting c k) ->
    step cfg (LComplete c o)
      (Config (cstore cfg) (<[i := Resumed (k o)]> (ctasks cfg)) (cdraws cfg)).

(** Executions, extended at the end. *)
Inductive steps : config -> list label -> config -> Prop :=
| steps_nil cfg : steps cfg [] cfg
| steps_snoc cfg tr cfg' l cfg'' :
    steps cfg tr cfg' -> step cfg' l cfg'' -> steps cfg (tr ++ [l]) cfg''.

(** The updates in the order their handlers were first run. *)
Fixpoint starts (tr : list label) : list update :=
  match tr with
  | [] => []
  | LStart u :: tr' => u :: starts tr'
  | _ :: tr' => starts tr'
  end.

(** The serial execution: each handler run to its end before the next
    starts, in the given order. *)
Fixpoint serial (us : list update) (m : store) (ds : list Z) : store * list Z :=
  match us with
  | [] => (m, ds)
  | u :: us' =>
      let r := handle u m ds [] in serial us' (final r) (rest_draws r)
  end.

(** What each task of a reachable configuration satisfies. *)
Definition task_ok (t : task) : Prop :=
  match t with
  | Fresh u p => dispatch u = Some p
  | Resumed p => passive p
  | Waiting _ k => forall o, passive (k o)
  | Ended => True
  end.

(** ** Every handler is atomic *)

Ltac atomic_step :=
  match goal with
  | |- atomic (mbind _ (if ?b then _ else _)) => destruct b
  | |- atomic (mbind _ _) =>
      apply atomic_bind_sync; [solve [eauto 10 with proc] | intros ?]
  | |- atomic (if ?b then _ else _) => destruct b
  | |- atomic (match ?x with _ => _ end) => destruct x
  | |- atomic _ => apply passive_atomic; solve [eauto 10 with proc]
  end.

Lemma handlers_atomic (u : update) (p : proc unit) :
  dispatch u = Some p -> atomic p.
Proof.
  destruct u as [user c|user d]; simpl; intros Hd; repeat case_match; simplify_eq;
    unfold cmd_start, cmd_play, cmd_score, cmd_quit, process_answer,
      process_quit, process_hint; repeat atomic_step.
Qed.

(** ** Slices of atomic and passive coroutines *)

(** A passive slice leaves the store and the draws alone. *)
Lemma slice_passive (p : proc unit) (m : store) (ds : list Z) :
  passive p ->
  sl_store (run_slice p m ds) = m /\ sl_draws (run_slice p m ds) = ds /\
  task_ok (after (sl_status (run_slice p m ds))).
Proof. induction 1; simpl; auto. Qed.

(** The first slice of an atomic coroutine does all it does to the store
    and the draws: exactly what running it to its end does, whatever the
    outcomes of its calls. *)
Lemma slice_atomic (p : proc unit) (m : store) (ds : list Z) (os : list outcome) :
  atomic p ->
  sl_store (run_slice p m ds) = final (run p m ds os) /\
  sl_draws (run_slice p m ds) = rest_draws (run p m ds os) /\
  task_ok (after (sl_status (run_slice p m ds))).
Proof.
  intros Hp. revert m ds os. induction Hp as [| |k _ IH|m' k _ IH|n k _ IH|lv s a k _ IH|c k Hk];
    intros m ds os; simpl; auto.
  - destruct (n <=? 0); simpl; auto.
  - destruct (run_passive (k (hd Done os)) m ds (tl os) (Hk _)) as [-> ->]. auto.
Qed.

Lemma starts_app (tr1 tr2 : list label) : starts (tr1 ++ tr2) = starts tr1 ++ starts tr2.
Proof. induction tr1 as [|[] tr1 IH]; simpl; rewrite ?IH; done. Qed.

Lemma serial_app (us1 us2 : list update) (m : store) (ds : list Z) :
  serial (us1 ++ us2) m ds = let '(m', ds') := serial us1 m ds in serial us2 m' ds'.
Proof. revert m ds. induction us1 as [|u us1 IH]; intros m ds; simpl; auto. Qed.

(** ** The invariant of executions *)

Lemma step_preserves (cfg : config) (l : label) (cfg' : config) (us : list update)
    (m0 : store) (ds0 : list Z) :
  step cfg l cfg' ->
  Forall task_ok (ctasks cfg) -> serial us m0 ds0 = (cstore cfg, cdraws cfg) ->
  Forall task_ok (ctasks cfg') /\
  serial (us ++ starts [l]) m0 ds0 = (cstore cfg', cdraws cfg').
Proof.
  intros Hs Hok Hser. rewrite serial_app, Hser.
  destruct Hs as [cfg u p Hd|cfg i u p Hi|cfg i p Hi|cfg i c k o Hi]; simpl.
  - split; [|done]. apply Forall_app_2; [done|]. by repeat constructor.
  - pose proof (Forall_lookup_1 _ _ _ _ Hok Hi) as Hd. simpl in Hd.
    destruct (slice_atomic p (cstore cfg) (cdraws cfg) [] (handlers_atomic _ _ Hd))
      as (Hm & Hds & Ht).
    split; [by apply Forall_insert|]. unfold handle. rewrite Hd. simpl. by rewrite Hm, Hds.
  - pose proof (Forall_lookup_1 _ _ _ _ Hok Hi) as Hp. simpl in Hp.
    destruct (slice_passive p (cstore cfg) (cdraws cfg) Hp) as (Hm & Hds & Ht).
    split; [by apply Forall_insert|]. simpl. by rewrite Hm, Hds.
  - pose proof (Forall_lookup_1 _ _ _ _ Hok Hi) as Hk. simpl in Hk.
    split; [|done]. apply Forall_insert; [done|]. apply Hk.
Qed.

Lemma steps_invariant (m0 : store) (ds0 : list Z) (tr : list label) (cfg : config) :
  steps (Config m0 [] ds0) tr cfg ->
  Forall task_ok (ctasks cfg) /\ serial (starts tr) m0 ds0 = (cstore cfg, cdraws cfg).
Proof.
  remember (Config m0 [] ds0) as cfg0 eqn:E. induction 1 as [cfg|cfg tr cfg' l cfg'' Hst IH Hs].
  - subst. split; [constructor | done].
  - destruct (IH E) as [Hok Hser]. rewrite starts_app.
    exact (step_preserves _ _ _ _ _ _ Hs Hok Hser).
Qed.

(** ** Serializability *)

(** C2: in every interleaving of handler tasks that asyncio can produce
    (arrivals, slices up to the next [await], completions of calls with
    any outcome, in any order), [user_state] and the remaining random
    draws are exactly those of running the started handlers one after the
    other, in the order of their first slices.  Same-user handlers need no
    lock: none of them touches [user_state] after its first [await]. *)
Theorem interleaving_serializable (m0 : store) (ds0 : list Z) (tr : list label)
    (cfg : config) :
  steps (Config m0 [] ds0) tr cfg ->
  (cstore cfg, cdraws cfg) = serial (starts tr) m0 ds0.
Proof. intros Hst. symmetry. apply (steps_invariant m0 ds0 tr cfg Hst). Qed.

(** An execution: two answers of user 7 arrive; both tasks run their
    first slice; the acknowledgement of the first fails. *)
Lemma two_answers_execution :
  exists cfg,
    steps (Config ∅ [] [3; 1])
      (((([] ++ [LArrive (CallbackQuery 7 (Some "answer|1|2"%string))])
          ++ [LArrive (CallbackQuery 7 (Some "answer|1|0"%string))])
          ++ [LStart (CallbackQuery 7 (Some "answer|1|2"%string))])
          ++ [LStart (CallbackQuery 7 (Some "answer|1|0"%string))]
          ++ [LComplete (AnswerCallback correct_text true) (Failed TelegramAPIError)])
      cfg.
Proof.
  rewrite app_assoc. eexists.
  eapply steps_snoc; [eapply steps_snoc; [eapply steps_snoc;
    [eapply steps_snoc; [eapply steps_snoc; [apply steps_nil|]|]|]|]|].
  - apply step_arrive. reflexivity.
  - apply step_arrive. reflexivity.
  - eapply (step_start _ 0). reflexivity.
  - eapply (step_start _ 1). reflexivity.
  - eapply (step_complete _ 0). reflexivity.
Qed.

Lemma interleaving_serializable_witness :
  exists tr cfg, steps (Config ∅ [] [3; 1]) tr cfg /\
    (cstore cfg, cdraws cfg) = serial (starts tr) ∅ [3; 1].
Proof.
  destruct two_answers_execution as [cfg Hst].
  eexists. exists cfg. split; [exact Hst|]. exact (interleaving_serializable _ _ _ _ Hst).
Defined.

End Concurrency.
