(* ===== verification/Game.v ===== *)
(** The game as the spec designs it (sections 4.2-4.9 and the design
    notes): typed events (a command, or a callback payload decoded once at
    the boundary) and a per-user state machine over any store that meets
    the [SessionStore] contract (an operational class: the step is written
    against [ss_get], [ss_set], [ss_delete] and [ss_mutate_score] only).
    The lemma [handle_step_refines] shows that the string-based handlers
    of src/bot_aiogram.py, run on the encoded update with any oracle,
    leave [user_state] exactly as the abstract step leaves the dictionary
    store, and [handle_rest_draws] which events consume a random draw;
    [Scenarios.bot_refines_game] lifts both to whole executions. *)

From S2P Require Import Prelude PyBuiltins Questions Callback Store Proc Handlers.
Import Py Questions Callback Store Proc Handlers.

Module Game.

Inductive command := CStart | CHelp | CPlay | CScore | CQuit.

Inductive game_event :=
| ECommand (user : Z) (cmd : command)
| ECallback (user : Z) (p : payload).

(** The spec's [Bank.get]: [OutOfRange] ([None]) outside [[0, len)]. *)
Definition bank_get (qi : Z) : option question :=
  if (0 <=? qi) && (qi <? n_questions) then QUESTIONS !! Z.to_nat qi else None.

Definition delta (x : question) (c : Z) : Z :=
  if bool_decide (c = answer_index x) then 10 else -5.

Section Spec.
Context `{SessionStore M}.

(** Store the session's current question, keeping its score. *)
Definition set_current (m : M) (u r : Z) : M :=
  match ss_get m u with
  | Some st => ss_set m u (Session (score st) (Some r))
  | None => m
  end.

(** One event, with [r] the index [randomIndex()] returns. *)
Definition spec_step (ev : game_event) (r : Z) (m : M) : M :=
  match ev with
  | ECommand u CPlay => ss_set m u (Session 0 (Some r))
  | ECommand u CQuit => ss_delete m u
  | ECommand _ _ => m
  | ECallback u (PAnswer qi c) =>
      match bank_get qi with
      | Some x => set_current (ss_mutate_score m u (delta x c)).2 u r
      | None => m
      end
  | ECallback _ (PHint _) => m
  | ECallback u PQuit => ss_delete m u
  end.

Fixpoint spec_run (evs : list (game_event * Z)) (m : M) : M :=
  match evs with
  | [] => m
  | (ev, r) :: evs' => spec_run evs' (spec_step ev r m)
  end.

End Spec.

(** ** The concrete side *)

(** The update Telegram delivers for an event: the command word, or the
    button's callback data. *)
Definition concretize (ev : game_event) : update :=
  match ev with
  | ECommand u CStart => MessageCmd u (Some "start")
  | ECommand u CHelp => MessageCmd u (Some "help")
  | ECommand u CPlay => MessageCmd u (Some "play")
  | ECommand u CScore => MessageCmd u (Some "score")
  | ECommand u CQuit => MessageCmd u (Some "quit")
  | ECallback u p => CallbackQuery u (Some (encode p))
  end%string.

(** The events the bot's own buttons and commands produce: question
    indices are not negative. *)
Definition valid_event (ev : game_event) : Prop :=
  match ev with
  | ECallback _ (PAnswer qi _) => 0 <= qi
  | _ => True
  end.

(** Whether the handler of an event consumes a [random.randrange] draw:
    /play, and an answer whose question exists. *)
Definition uses_draw (ev : game_event) : bool :=
  match ev with
  | ECommand _ CPlay => true
  | ECallback _ (PAnswer qi _) => if bank_get qi is Some _ then true else false
  | _ => false
  end.

(** ** Lemmas of the refinement *)

Lemma dispatch_start u : dispatch (MessageCmd u (Some "start"%string)) = Some (cmd_start u).
Proof. reflexivity. Qed.
Lemma dispatch_help u : dispatch (MessageCmd u (Some "help"%string)) = Some (cmd_start u).
Proof. reflexivity. Qed.
Lemma dispatch_play u : dispatch (MessageCmd u (Some "play"%string)) = Some (cmd_play u).
Proof. reflexivity. Qed.
Lemma dispatch_score u : dispatch (MessageCmd u (Some "score"%string)) = Some (cmd_score u).
Proof. reflexivity. Qed.
Lemma dispatch_quit u : dispatch (MessageCmd u (Some "quit"%string)) = Some (cmd_quit u).
Proof. reflexivity. Qed.

(** [bank_get] agrees with [QUESTIONS[qi]] on non-negative indices. *)
Lemma bank_get_py_index (qi : Z) : 0 <= qi -> bank_get qi = py_index QUESTIONS qi.
Proof.
  intros Hq. unfold bank_get. rewrite py_index_nonneg by done.
  destruct (Z.leb_spec 0 qi); [|lia]. destruct (Z.ltb_spec qi n_questions); [done|].
  simpl. symmetry. apply lookup_Z_ge. unfold n_questions in *. lia.
Qed.

(** The abstract answer step on the dictionary store is one insertion. *)
Lemma set_current_mutate (m : store) (u d r : Z) :
  set_current (ss_mutate_score m u d).2 u r =
    <[u := Session (score (dict_get m u (Session 0 None)) + d) (Some r)]> m.
Proof.
  unfold set_current. simpl. rewrite dict_mutate_score_lookup, decide_True by done.
  unfold dict_set. apply map_eq. intros v. destruct (decide (u = v)) as [<-|Hne].
  - rewrite !lookup_insert_eq. unfold dict_get. by destruct (m !! u).
  - rewrite !lookup_insert_ne by done.
    rewrite dict_mutate_score_lookup. by rewrite decide_False.
Qed.

(** ** Refinement *)

(** One update: for every event the bot's own buttons and commands
    produce, dispatching its encoded update and running the handler,
    whatever the Telegram calls return, leaves [user_state] exactly as the
    spec's step leaves the dictionary store, with [randomIndex()] the
    handler's draw. *)
Lemma handle_step_refines (ev : game_event) (m : store) (ds : list Z) (os : list outcome) :
  valid_event ev ->
  final (handle (concretize ev) m ds os) = spec_step ev (draw n_questions ds) m.
Proof.
  intros Hv. unfold handle.
  destruct ev as [u [| | | |]|u [qi c|qi|]]; cbn [concretize spec_step].
  - rewrite dispatch_start. by apply final_passive, passive_await_.
  - rewrite dispatch_help. by apply final_passive, passive_await_.
  - rewrite dispatch_play. by destruct (cmd_play_spec u m ds os) as (x & kb & _ & _ & ->).
  - rewrite dispatch_score, cmd_score_spec. done.
  - rewrite dispatch_quit, cmd_quit_spec. simpl.
    destruct (dict_contains m u) eqn:E; [done|].
    apply dict_contains_false in E. by rewrite delete_id.
  - rewrite dispatch_encode. simpl in Hv. rewrite bank_get_py_index by done.
    destruct (py_index QUESTIONS qi) as [x|] eqn:Hx.
    + rewrite (process_answer_spec u _ qi c x) by (done || apply parse_answer_data).
      rewrite final_passive by apply passive_answer_reply.
      by rewrite set_current_mutate.
    + unfold process_answer. simpl. rewrite parse_answer_data. simpl.
      by rewrite Hx.
  - rewrite dispatch_encode. by apply final_passive, passive_process_hint.
  - rewrite dispatch_encode, process_quit_spec. simpl. by destruct (hd Done os).
Qed.

(** The draws the handler of an event consumes. *)
Lemma handle_rest_draws (ev : game_event) (m : store) (ds : list Z) (os : list outcome) :
  valid_event ev ->
  rest_draws (handle (concretize ev) m ds os) = if uses_draw ev then tl ds else ds.
Proof.
  intros Hv. unfold handle.
  destruct ev as [u [| | | |]|u [qi c|qi|]]; cbn [concretize uses_draw].
  - rewrite dispatch_start. exact (proj2 (run_passive _ m ds os (passive_await_ _))).
  - rewrite dispatch_help. exact (proj2 (run_passive _ m ds os (passive_await_ _))).
  - rewrite dispatch_play. by destruct (cmd_play_spec u m ds os) as (x & kb & _ & _ & ->).
  - by rewrite dispatch_score, cmd_score_spec.
  - rewrite dispatch_quit, cmd_quit_spec. by case_match.
  - rewrite dispatch_encode. simpl in Hv. rewrite bank_get_py_index by done.
    destruct (py_index QUESTIONS qi) as [x|] eqn:Hx.
    + rewrite (process_answer_spec u _ qi c x) by (done || apply parse_answer_data).
      exact (proj2 (run_passive _ _ _ os (passive_answer_reply _ _))).
    + unfold process_answer. simpl. rewrite parse_answer_data. simpl. by rewrite Hx.
  - rewrite dispatch_encode. exact (proj2 (run_passive _ m ds os (passive_process_hint _ _))).
  - rewrite dispatch_encode, process_quit_spec. simpl. by destruct (hd Done os).
Qed.

End Game.
