(* ===== verification/Startup.v ===== *)
(** Configuration and start-up of src/bot_aiogram.py: the [BOT_TOKEN]
    lookup with its placeholder default and warning (lines 18-21), the
    description texts (lines 27-31), [set_bot_texts] (lines 146-152), which
    awaits the two registration calls inside [try] and catches only
    [TelegramAPIError], and [on_startup] (lines 154-156).  The environment
    is the process environment after [load_dotenv]. *)

From S2P Require Import Prelude PyBuiltins Questions Store Proc.
Import Py Questions Store Proc.

Module Startup.

Definition placeholder : string := "your_bot_token_here".

(** [os.getenv("BOT_TOKEN", "your_bot_token_here")] *)
Definition bot_token (env : gmap string string) : string :=
  match env !! "BOT_TOKEN"%string with Some t => t | None => placeholder end.

Definition placeholder_warning : string :=
  "BOT_TOKEN is placeholder. Set BOT_TOKEN environment variable to your real token before deploying.".

(** Lines 18-21: the warning is logged, the process goes on. *)
Definition check_token (env : gmap string string) : proc unit :=
  if String.eqb (bot_token env) placeholder then log Warning placeholder_warning None
  else mret tt.

Definition SHORT_DESC : string :=
  "Step into the Upside Down. 🎮 Face the strange, solve the mystery, and survive the night with Strange Things Bot.".

Definition LONG_DESC : string :=
  "Welcome to Strange Things Bot — solve eerie puzzles, unlock clues, and uncover the secrets of Hawkins. " +:+
  "Use /play to start the spooky quiz. Good luck...".

(** [set_bot_texts], lines 146-152 *)
Definition set_bot_texts : proc unit :=
  try_except
    (await_ (SetShortDescription SHORT_DESC);;
     await_ (SetDescription LONG_DESC);;
     log Info "Set short and long descriptions." None)
    (fun e =>
       if decide (e = TelegramAPIError)
       then log Warning "Could not set bot descriptions: %s" (Some e)
       else Raise e).

(** [on_startup], lines 154-156 *)
Definition on_startup : proc unit :=
  set_bot_texts;;
  log Info "Bot started (on_startup complete)." None.

(** ** Theorems *)

Definition api_warning (e : exn) : list event :=
  if decide (e = TelegramAPIError)
  then [EvLog Warning "Could not set bot descriptions: %s" (Some e)] else [].

Definition caught (e : exn) : exn + unit :=
  if decide (e = TelegramAPIError) then inr tt else inl e.

(** C19: [set_bot_texts] registers the short, then the long description;
    a [TelegramAPIError] from either call is logged as a warning and
    swallowed (the long description is not attempted after a failed short
    one), while any other exception propagates.  The store is untouched. *)
Theorem set_bot_texts_outcome (m : store) (ds : list Z) (os : list outcome) :
  final (run set_bot_texts m ds os) = m /\
  match hd Done os, hd Done (tl os) with
  | Done, Done =>
      res (run set_bot_texts m ds os) = inr tt /\
      trace (run set_bot_texts m ds os) =
        [EvCall (SetShortDescription SHORT_DESC) Done;
         EvCall (SetDescription LONG_DESC) Done;
         EvLog Info "Set short and long descriptions." None]
  | Done, Failed e =>
      res (run set_bot_texts m ds os) = caught e /\
      trace (run set_bot_texts m ds os) =
        [EvCall (SetShortDescription SHORT_DESC) Done;
         EvCall (SetDescription LONG_DESC) (Failed e)] ++ api_warning e
  | Failed e, _ =>
      res (run set_bot_texts m ds os) = caught e /\
      trace (run set_bot_texts m ds os) =
        [EvCall (SetShortDescription SHORT_DESC) (Failed e)] ++ api_warning e
  end.
Proof.
  unfold set_bot_texts, caught, api_warning. simpl.
  destruct (hd Done os) as [|e]; simpl;
    [destruct (hd Done (tl os)) as [|e]; simpl|];
    try (case_decide; subst); done.
Qed.

(** C20: [on_startup] first issues the registration of the short
    description, and start-up completes (no exception, and its last log
    line is "Bot started") whenever the two registration calls either
    succeed or fail with [TelegramAPIError]. *)
Theorem on_startup_completes (m : store) (ds : list Z) (os : list outcome) :
  (forall o, o ∈ take 2 os -> o = Done \/ o = Failed TelegramAPIError) ->
  head (trace (run on_startup m ds os)) =
    Some (EvCall (SetShortDescription SHORT_DESC) (hd Done os)) /\
  res (run on_startup m ds os) = inr tt /\
  last (trace (run on_startup m ds os)) =
    Some (EvLog Info "Bot started (on_startup complete)." None).
Proof.
  intros Hos. unfold on_startup, set_bot_texts. simpl.
  destruct os as [|o1 [|o2 os]]; simpl in *; [done| |].
  - destruct (Hos o1) as [->| ->]; [set_solver|done|done].
  - destruct (Hos o1) as [->| ->]; [set_solver| |done].
    destruct (Hos o2) as [->| ->]; [set_solver|done|done].
Qed.

(** C21: the token check never stops the process; it logs the placeholder
    warning exactly when [BOT_TOKEN] is unset or equal to the placeholder. *)
Theorem check_token_warns (env : gmap string string) (m : store) (ds : list Z)
    (os : list outcome) :
  res (run (check_token env) m ds os) = inr tt /\
  final (run (check_token env) m ds os) = m /\
  (trace (run (check_token env) m ds os) = [EvLog Warning placeholder_warning None] <->
   env !! "BOT_TOKEN"%string = None \/ env !! "BOT_TOKEN"%string = Some placeholder).
Proof.
  unfold check_token, bot_token.
  destruct (env !! "BOT_TOKEN"%string) as [t|] eqn:E.
  - destruct (String.eqb_spec t placeholder) as [->|Hne]; simpl.
    + split_and!; [done|done|]. split; auto.
    + split_and!; [done|done|]. split; [done|]. intros [?|?]; congruence.
  - simpl. split_and!; [done|done|]. split; auto.
Qed.

Lemma on_startup_completes_witness :
  (forall o, o ∈ take 2 [Done; Failed TelegramAPIError] ->
     o = Done \/ o = Failed TelegramAPIError) /\
  res (run on_startup ∅ [] [Done; Failed TelegramAPIError]) = inr tt.
Proof.
  assert (forall o, o ∈ take 2 [Done; Failed TelegramAPIError] ->
     o = Done \/ o = Failed TelegramAPIError) as H by (simpl; set_solver).
  split; [exact H | exact (proj1 (proj2 (on_startup_completes ∅ [] _ H)))].
Defined.

End Startup.
