(* ===== verification/Scenarios.v ===== *)
(** Whole-bot properties over sequences of updates: the refinement of the
    spec's typed game by whole executions in any asyncio interleaving
    ([bot_refines_game]); every handler touches only the session of the
    user who sent the update; the scores of a user's answers add up, in
    every interleaving and whatever other users do; the bot's own events
    complete without an exception when Telegram calls succeed; Python's
    negative indexing and [int]'s whitespace stripping make the answer
    decoding accept payloads no button carries; and the end-to-end scenario of the spec (section 8) runs
    as written when every Telegram call succeeds. *)

From S2P Require Import Prelude PyBuiltins Questions Callback Store Proc Handlers Game Concurrency.
Import Py Questions Callback Store Proc Handlers Game Concurrency.

Module Scenarios.

(** The stores agree on every user but [u]. *)
Definition agree_off (u : Z) (m m' : store) : Prop :=
  forall v, v <> u -> m' !! v = m !! v.

(** The callback updates of [u]'s answer buttons, for the given
    (question index, choice) pairs. *)
Definition answers (u : Z) (acs : list (Z * Z)) : list update :=
  map (fun '(qi, c) => CallbackQuery u (Some (answer_data qi c))) acs.

(** What one answer adds to the score: [delta] of the question
    [QUESTIONS[qi]] names, nothing when the lookup raises. *)
Definition answer_delta (ac : Z * Z) : Z :=
  match py_index QUESTIONS ac.1 with
  | Some x => delta x ac.2
  | None => 0
  end.

Definition answer_total (acs : list (Z * Z)) : Z := foldr (fun ac s => answer_delta ac + s) 0 acs.

(** Updates handled one after the other, every Telegram call succeeding:
    the store after each update, with the calls and logs it made. *)
Fixpoint replay (us : list update) (m : store) (ds : list Z) : list (store * list event) :=
  match us with
  | [] => []
  | u :: us' =>
      let r := handle u m ds [] in (final r, trace r) :: replay us' (final r) (rest_draws r)
  end.

(** The events whose question indices are those the bot's keyboards
    carry: [[0, len(QUESTIONS))]. *)
Definition in_range (ev : game_event) : Prop :=
  match ev with
  | ECallback _ (PAnswer qi _) | ECallback _ (PHint qi) => 0 <= qi < n_questions
  | _ => True
  end.

(** The index [randomIndex()] returns at each event of a run: the next
    draw, which the events whose handler draws consume. *)
Fixpoint with_draws (evs : list game_event) (ds : list Z) : list (game_event * Z) :=
  match evs with
  | [] => []
  | ev :: evs' =>
      (ev, draw n_questions ds) :: with_draws evs' (if uses_draw ev then tl ds else ds)
  end.

(** ** Isolation of users *)

#[local] Arguments draw : simpl never.
#[local] Arguments answer_reply : simpl never.

#[global] Instance agree_off_equiv u : Equivalence (agree_off u).
Proof.
  split; unfold agree_off; [done| |].
  - intros m m' H v Hv. by rewrite H.
  - intros m1 m2 m3 H12 H23 v Hv. by rewrite H23, H12.
Qed.

Lemma agree_off_insert (u : Z) (st : session) (m : store) : agree_off u m (<[u := st]> m).
Proof. intros v Hv. by rewrite lookup_insert_ne. Qed.

Lemma agree_off_delete (u : Z) (m : store) : agree_off u m (delete u m).
Proof. intros v Hv. by rewrite lookup_delete_ne. Qed.

#[export] Hint Resolve agree_off_insert agree_off_delete : bot.

(** The store after [process_answer] on any data, whatever the outcomes. *)
Lemma process_answer_final (user : Z) (data : string) (m : store) (ds : list Z)
    (os : list outcome) :
  final (run (process_answer user data) m ds os) =
    match parse_answer data with
    | inr (qi, c) =>
        match py_index QUESTIONS qi with
        | Some x =>
            <[user := Session (score (dict_get m user (Session 0 None)) + delta x c)
                              (Some (draw n_questions ds))]> m
        | None => m
        end
    | inl _ => m
    end.
Proof.
  destruct (parse_answer data) as [e|[qi c]] eqn:Hp.
  - unfold process_answer. by rewrite Hp.
  - destruct (py_index QUESTIONS qi) as [x|] eqn:Hx.
    + rewrite (process_answer_spec user data qi c x) by done.
      by rewrite final_passive by apply passive_answer_reply.
    + unfold process_answer. rewrite Hp. simpl. by rewrite Hx.
Qed.

Lemma handle_agree_off (upd : update) (m : store) (ds : list Z) (os : list outcome) :
  agree_off (update_user upd) m (final (handle upd m ds os)).
Proof.
  unfold handle. destruct (dispatch upd) as [p|] eqn:Hd; [|done].
  destruct upd as [user c|user d]; simpl in *; repeat case_match; simplify_eq.
  - by rewrite final_passive by apply passive_await_.
  - destruct (cmd_play_spec user m ds os) as (x & kb & _ & _ & ->). apply agree_off_insert.
  - by rewrite cmd_score_spec.
  - rewrite cmd_quit_spec. case_match; [apply agree_off_delete|done].
  - rewrite process_answer_final. repeat case_match; auto with bot; done.
  - rewrite process_quit_spec. case_match; apply agree_off_delete.
  - by rewrite final_passive by apply passive_process_hint.
Qed.

(** ** Answers *)

(** The store after one answer update, whatever the outcomes. *)
Lemma handle_answer_store (u qi c : Z) (m : store) (ds : list Z) (os : list outcome) :
  final (handle (CallbackQuery u (Some (answer_data qi c))) m ds os) =
    match py_index QUESTIONS qi with
    | Some x =>
        <[u := Session (score (dict_get m u (Session 0 None)) + delta x c)
                       (Some (draw n_questions ds))]> m
    | None => m
    end.
Proof.
  unfold handle. change (answer_data qi c) with (encode (PAnswer qi c)).
  rewrite (dispatch_encode u (PAnswer qi c)), process_answer_final.
  change (encode (PAnswer qi c)) with (answer_data qi c). by rewrite parse_answer_data.
Qed.

Lemma handle_answer_score (u qi c : Z) (m : store) (ds : list Z) (os : list outcome) :
  score (dict_get (final (handle (CallbackQuery u (Some (answer_data qi c))) m ds os))
                  u (Session 0 None)) =
    score (dict_get m u (Session 0 None)) + answer_delta (qi, c).
Proof.
  rewrite handle_answer_store. unfold answer_delta. simpl.
  destruct (py_index QUESTIONS qi); [by rewrite dict_get_insert_eq | lia].
Qed.

Lemma handle_other_user (upd : update) (u : Z) (m : store) (ds : list Z) (os : list outcome)
    (d : session) :
  update_user upd <> u -> dict_get (final (handle upd m ds os)) u d = dict_get m u d.
Proof. intros Hu. unfold dict_get. rewrite (handle_agree_off upd m ds os u); congruence. Qed.

(** Run serially, the updates of [u] that are answers add up, whatever
    the updates of the other users between them. *)
Lemma serial_score (u : Z) (us : list update) (acs : list (Z * Z)) (m : store) (ds : list Z) :
  filter (fun upd => update_user upd = u) us = answers u acs ->
  score (dict_get (serial us m ds).1 u (Session 0 None)) =
    score (dict_get m u (Session 0 None)) + answer_total acs.
Proof.
  revert acs m ds. induction us as [|upd us IH]; intros acs m ds Hf; simpl.
  - destruct acs; [simpl; lia | done].
  - rewrite filter_cons in Hf. case_decide as Hu.
    + destruct acs as [|[qi c] acs]; [done|]. injection Hf as -> Hf.
      rewrite (IH acs) by exact Hf. rewrite handle_answer_score. simpl. lia.
    + rewrite (IH acs) by exact Hf. by rewrite handle_other_user.
Qed.

(** ** All calls succeeding *)

(** The button after the correct one, cyclically, is a wrong answer. *)
Lemma next_choice_wrong (r : Z) :
  0 <= r < n_questions ->
  (answer_index (QUESTIONS !!! Z.to_nat r) + 1)
    mod Z.of_nat (length (choices (QUESTIONS !!! Z.to_nat r)))
  <> answer_index (QUESTIONS !!! Z.to_nat r).
Proof.
  rewrite n_questions_eq. intros Hr. assert (Z.to_nat r < 4)%nat as Hk by lia.
  destruct (Z.to_nat r) as [|[|[|[|k]]]]; try lia; intros H; vm_compute in H; discriminate H.
Qed.

Lemma dict_contains_insert (m : store) (u : Z) (st : session) :
  dict_contains (<[u := st]> m) u = true.
Proof. apply dict_contains_spec. rewrite lookup_insert_eq. by eexists. Qed.

Lemma draw_question (ds : list Z) :
  py_index QUESTIONS (draw n_questions ds) = Some (QUESTIONS !!! Z.to_nat (draw n_questions ds)).
Proof. apply py_index_valid, draw_range. by rewrite n_questions_eq. Qed.

Lemma handle_play_ok (u : Z) (m : store) (ds : list Z) :
  handle (MessageCmd u (Some "play"%string)) m ds [] =
    Result (inr tt) (<[u := Session 0 (Some (draw n_questions ds))]> m)
      [EvCall (Reply ("🕹️ " +:+ q (QUESTIONS !!! Z.to_nat (draw n_questions ds)))
                     (question_kb (draw n_questions ds))) Done] (tl ds) [].
Proof.
  unfold handle. rewrite dispatch_play.
  destruct (cmd_play_spec u m ds []) as (x & kb & Hx & Hkb & ->).
  rewrite draw_question in Hx. injection Hx as <-. by rewrite Hkb.
Qed.

Lemma handle_answer_ok (u qi c : Z) (x : question) (m : store) (ds : list Z) :
  py_index QUESTIONS qi = Some x ->
  let text := if bool_decide (c = answer_index x) then correct_text else wrong_text x in
  let r := draw n_questions ds in
  handle (CallbackQuery u (Some (answer_data qi c))) m ds [] =
    Result (inr tt)
      (<[u := Session (score (dict_get m u (Session 0 None)) +
                       (if bool_decide (c = answer_index x) then 10 else -5)) (Some r)]> m)
      [EvCall (AnswerCallback text true) Done;
       EvCall (EditText (next_text text (QUESTIONS !!! Z.to_nat r)) (question_kb r)) Done]
      (tl ds) [].
Proof.
  intros Hx text r. unfold handle. change (answer_data qi c) with (encode (PAnswer qi c)).
  rewrite (dispatch_encode u (PAnswer qi c)).
  rewrite (process_answer_spec u _ qi c x) by (done || apply parse_answer_data).
  destruct (valid_draw ds) as (nx & kb & Hnx & Hkb).
  rewrite (answer_reply_spec _ _ nx kb) by done.
  rewrite draw_question in Hnx. injection Hnx as <-. subst r. by rewrite Hkb.
Qed.

Lemma handle_quit_ok (u : Z) (m : store) (ds : list Z) :
  handle (MessageCmd u (Some "quit"%string)) m ds [] =
    Result (inr tt) (if dict_contains m u then delete u m else m)
      [EvCall (Reply (if dict_contains m u then left_text else no_game_text) None) Done] ds [].
Proof. unfold handle. rewrite dispatch_quit, cmd_quit_spec. by destruct (dict_contains m u). Qed.

Lemma handle_score_ok (u : Z) (m : store) (ds : list Z) :
  handle (MessageCmd u (Some "score"%string)) m ds [] =
    Result (inr tt) m
      [EvCall (Reply ("🏆 Your score: " +:+ py_str (score (dict_get m u (Session 0 None)))) None)
              Done] ds [].
Proof. unfold handle. by rewrite dispatch_score, cmd_score_spec. Qed.

Lemma all_done_hd (os : list outcome) :
  Forall (eq Done) os -> hd Done os = Done /\ hd Done (tl os) = Done.
Proof.
  destruct os as [|o [|o' os]]; simpl; intros H;
    repeat match goal with H : Forall _ (_ :: _) |- _ => inversion_clear H end; subst; auto.
Qed.

(** A serial run of the encoded events refines the abstract run. *)
Lemma serial_refines (evs : list game_event) (m : store) (ds : list Z) :
  Forall valid_event evs ->
  (serial (concretize <$> evs) m ds).1 = spec_run (with_draws evs ds) m.
Proof.
  revert m ds. induction evs as [|ev evs IH]; intros m ds Hv; [done|].
  apply Forall_cons in Hv as [Hv Hvs]. simpl.
  rewrite IH, handle_rest_draws, handle_step_refines by done. done.
Qed.

(** ** Properties *)

(** C7: every handler, on every update and whatever its Telegram calls
    return, leaves the session of every other user as it was: a user's
    entry of [user_state] is changed only by that user's updates. *)
Theorem handle_isolates_users (upd : update) (v : Z) (m : store) (ds : list Z)
    (os : list outcome) :
  update_user upd <> v -> final (handle upd m ds os) !! v = m !! v.
Proof. intros Hv. apply handle_agree_off. congruence. Qed.

(** C3: in every asyncio interleaving of handler tasks, whatever the
    outcomes of the calls and whatever the other users do, when the
    updates of user [u] whose handlers started are answer buttons, [u]'s
    score ends at its old score (0 without a session) plus the sum of
    +10 per correct and -5 per wrong answer (nothing for an index
    [QUESTIONS] rejects): no update is lost and no score is clamped. *)
Theorem concurrent_scores_add_up (u : Z) (acs : list (Z * Z)) (m0 : store) (ds0 : list Z)
    (tr : list label) (cfg : config) :
  steps (Config m0 [] ds0) tr cfg ->
  filter (fun upd => update_user upd = u) (starts tr) = answers u acs ->
  score (dict_get (cstore cfg) u (Session 0 None)) =
    score (dict_get m0 u (Session 0 None)) + answer_total acs.
Proof.
  intros Hst Hf. destruct (steps_invariant m0 ds0 tr cfg Hst) as [_ Hser].
  by rewrite <- (serial_score u (starts tr) acs m0 ds0 Hf), Hser.
Qed.

(** C12: an answer payload with a negative question index [qi] in
    [[-len(QUESTIONS), 0)] is not rejected: Python's indexing reads
    [QUESTIONS[qi + len(QUESTIONS)]] and the answer is scored against that
    question, although the bot's buttons never carry such an index. *)
Theorem negative_index_scores (u qi c : Z) (m : store) (ds : list Z) (os : list outcome) :
  - n_questions <= qi < 0 ->
  final (handle (CallbackQuery u (Some (answer_data qi c))) m ds os) =
    <[u := Session (score (dict_get m u (Session 0 None)) +
                    delta (QUESTIONS !!! Z.to_nat (qi + n_questions)) c)
                   (Some (draw n_questions ds))]> m.
Proof. intros Hq. by rewrite handle_answer_store, py_index_negative. Qed.

(** C8: the scenario of the spec (section 8), every Telegram call
    succeeding: a user without a session runs /play and gets question
    [r0] with its keyboard; the correct button scores 10 and shows the
    next question [r1]; a wrong button of that keyboard (the choice after
    the correct one, cyclically) scores 5 and the feedback carries the
    hint; /quit removes the session, leaving the store as it was;
    /score then reports 0. *)
Theorem spec_scenario (u d0 d1 d2 : Z) (m : store) :
  m !! u = None ->
  let r0 := d0 mod n_questions in
  let r1 := d1 mod n_questions in
  let r2 := d2 mod n_questions in
  let x0 := QUESTIONS !!! Z.to_nat r0 in
  let x1 := QUESTIONS !!! Z.to_nat r1 in
  replay [MessageCmd u (Some "play"); CallbackQuery u (Some (answer_data r0 (answer_index x0)));
          CallbackQuery u (Some (answer_data r1
                              ((answer_index x1 + 1) mod Z.of_nat (length (choices x1)))));
          MessageCmd u (Some "quit"); MessageCmd u (Some "score")] m [d0; d1; d2] =
  [(<[u := Session 0 (Some r0)]> m, [EvCall (Reply ("🕹️ " +:+ q x0) (question_kb r0)) Done]);
   (<[u := Session 10 (Some r1)]> m,
     [EvCall (AnswerCallback correct_text true) Done;
      EvCall (EditText (next_text correct_text x1) (question_kb r1)) Done]);
   (<[u := Session 5 (Some r2)]> m,
     [EvCall (AnswerCallback (wrong_text x1) true) Done;
      EvCall (EditText (next_text (wrong_text x1) (QUESTIONS !!! Z.to_nat r2))
                       (question_kb r2)) Done]);
   (m, [EvCall (Reply left_text None) Done]);
   (m, [EvCall (Reply "🏆 Your score: 0" None) Done])]%string.
Proof.
  intros Hu r0 r1 r2 x0 x1. cbn [replay]. rewrite handle_play_ok. cbn [final trace rest_draws tl].
  rewrite (handle_answer_ok u r0 _ x0) by exact (draw_question [d0]).
  cbn [final trace rest_draws tl]. rewrite dict_get_insert_eq, insert_insert_eq.
  rewrite bool_decide_eq_true_2 by done.
  rewrite (handle_answer_ok u r1 _ x1) by exact (draw_question [d1]).
  cbn [final trace rest_draws tl]. rewrite dict_get_insert_eq, insert_insert_eq.
  rewrite bool_decide_eq_false_2 by (apply next_choice_wrong, (draw_range n_questions [d1]); by rewrite n_questions_eq).
  rewrite handle_quit_ok. cbn [final trace rest_draws tl].
  rewrite dict_contains_insert. cbn iota.
  rewrite delete_insert_id by done. rewrite handle_score_ok.
  unfold dict_get. by rewrite Hu.
Qed.

Lemma handle_isolates_users_witness :
  update_user (MessageCmd 7 (Some "quit"%string)) <> 8 /\
  final (handle (MessageCmd 7 (Some "quit"%string)) {[7 := Session 3 None; 8 := Session 5 None]}
           [] []) !! 8 = Some (Session 5 None).
Proof.
  assert (update_user (MessageCmd 7 (Some "quit"%string)) <> 8) as Hv by (simpl; lia).
  split; [exact Hv|]. rewrite (handle_isolates_users _ 8 _ [] [] Hv). reflexivity.
Defined.

Lemma concurrent_scores_add_up_witness :
  exists tr cfg, steps (Config ∅ [] [3; 1]) tr cfg /\
    filter (fun upd => update_user upd = 7) (starts tr) = answers 7 [(1, 2); (1, 0)] /\
    score (dict_get (cstore cfg) 7 (Session 0 None)) = 5.
Proof.
  destruct two_answers_execution as [cfg Hst].
  eexists. exists cfg. split; [exact Hst|]. split; [reflexivity|].
  rewrite (concurrent_scores_add_up 7 [(1, 2); (1, 0)] ∅ [3; 1] _ cfg Hst eq_refl).
  reflexivity.
Defined.

Lemma negative_index_scores_witness :
  - n_questions <= -1 < 0 /\
  final (handle (CallbackQuery 7 (Some (answer_data (-1) 2))) ∅ [0] []) =
    {[7 := Session 10 (Some 0)]}.
Proof.
  split; [rewrite n_questions_eq; lia|].
  rewrite (negative_index_scores 7 (-1) 2 ∅ [0] [] ltac:(rewrite n_questions_eq; lia)).
  reflexivity.
Defined.

Lemma spec_scenario_witness :
  (∅ : store) !! 7 = None /\
  map fst (replay [MessageCmd 7 (Some "play"); CallbackQuery 7 (Some "answer|0|1");
                   CallbackQuery 7 (Some "answer|1|0"); MessageCmd 7 (Some "quit");
                   MessageCmd 7 (Some "score")] ∅ [0; 1; 2]) =
    [{[7 := Session 0 (Some 0)]}; {[7 := Session 10 (Some 1)]};
     {[7 := Session 5 (Some 2)]}; ∅; ∅]%string.
Proof.
  split; [done|]. exact (f_equal (map fst) (spec_scenario 7 0 1 2 ∅ eq_refl)).
Defined.

(** C11: spec section 7 for the bot's own keyboards: every command, and
    every button event whose question index the bot could have put on a
    button, is handled without an exception when the Telegram calls
    succeed, whatever the store and the draws. *)
Theorem handle_completes (ev : game_event) (m : store) (ds : list Z) (os : list outcome) :
  in_range ev -> Forall (eq Done) os ->
  res (handle (concretize ev) m ds os) = inr tt.
Proof.
  intros Hin Hos. destruct (all_done_hd os Hos) as [H1 H2]. unfold handle.
  destruct ev as [u [| | | |]|u [qi c|qi|]]; cbn [concretize]; simpl in Hin.
  - rewrite dispatch_start. unfold cmd_start. simpl. by rewrite H1.
  - rewrite dispatch_help. unfold cmd_start. simpl. by rewrite H1.
  - rewrite dispatch_play. destruct (cmd_play_spec u m ds os) as (? & ? & _ & _ & ->).
    simpl. by rewrite H1.
  - rewrite dispatch_score, cmd_score_spec. simpl. by rewrite H1.
  - rewrite dispatch_quit, cmd_quit_spec. case_match; simpl; by rewrite H1.
  - rewrite dispatch_encode. cbn iota.
    rewrite (process_answer_spec u _ qi c (QUESTIONS !!! Z.to_nat qi))
      by (apply parse_answer_data || by apply py_index_valid).
    destruct (valid_draw ds) as (nx & kb & Hnx & Hkb).
    rewrite (answer_reply_spec _ _ nx kb), H1, H2 by done. done.
  - rewrite dispatch_encode. cbn iota. unfold process_hint.
    change (encode (PHint qi)) with (hint_data qi). rewrite parse_hint_data. simpl.
    rewrite py_index_valid by done. simpl. by rewrite H1.
  - rewrite dispatch_encode, process_quit_spec. rewrite H1. simpl. by rewrite H2.
Qed.

Lemma handle_completes_witness :
  in_range (ECallback 7 (PAnswer 3 0)) /\ Forall (eq Done) [Done; Done] /\
  res (handle (concretize (ECallback 7 (PAnswer 3 0))) ∅ [5] [Done; Done]) = inr tt.
Proof.
  assert (in_range (ECallback 7 (PAnswer 3 0))) as Hin by (simpl; rewrite n_questions_eq; lia).
  assert (Forall (eq Done) [Done; Done]) as Hos by (repeat constructor).
  split_and!; [exact Hin | exact Hos | exact (handle_completes _ ∅ [5] _ Hin Hos)].
Defined.

(** C1: the bot refines the game of the spec, for whole executions: in
    every asyncio interleaving of the handlers of events the bot's own
    buttons and commands produce, whatever the Telegram calls return,
    [user_state] is the state the spec's game reaches by taking the events
    in the order their handlers started, each answer or /play with the
    next random index. *)
Theorem bot_refines_game (evs : list game_event) (m0 : store) (ds0 : list Z)
    (tr : list label) (cfg : config) :
  Forall valid_event evs ->
  steps (Config m0 [] ds0) tr cfg -> starts tr = concretize <$> evs ->
  cstore cfg = spec_run (with_draws evs ds0) m0.
Proof.
  intros Hv Hst Hs. destruct (steps_invariant m0 ds0 tr cfg Hst) as [_ Hser].
  rewrite Hs in Hser. by rewrite <- (serial_refines evs m0 ds0 Hv), Hser.
Qed.

Lemma bot_refines_game_witness :
  exists tr cfg, steps (Config ∅ [] [3; 1]) tr cfg /\
    Forall valid_event [ECallback 7 (PAnswer 1 2); ECallback 7 (PAnswer 1 0)] /\
    starts tr = concretize <$> [ECallback 7 (PAnswer 1 2); ECallback 7 (PAnswer 1 0)] /\
    cstore cfg = spec_run (with_draws [ECallback 7 (PAnswer 1 2); ECallback 7 (PAnswer 1 0)]
                                      [3; 1]) ∅.
Proof.
  destruct two_answers_execution as [cfg Hst].
  assert (Forall valid_event [ECallback 7 (PAnswer 1 2); ECallback 7 (PAnswer 1 0)]) as Hv
    by (repeat constructor; simpl; lia).
  eexists. exists cfg. split_and!; [exact Hst | exact Hv | reflexivity |].
  exact (bot_refines_game _ ∅ [3; 1] _ cfg Hv Hst eq_refl).
Defined.

(** C13: the answer payload is decoded leniently, as Python's [int] reads
    its fields: data whose indices are padded with the whitespace [int]
    strips (tab, newline, vertical tab, form feed, carriage return,
    space) are handled
    exactly as the button's own data, with the same store, calls, draws
    and exceptions, although no button of the bot carries them. *)
Theorem padded_answer_accepted (u qi c : Z) (w1 w2 w3 w4 : string) (m : store) (ds : list Z)
    (os : list outcome) :
  py_blank w1 = true -> py_blank w2 = true -> py_blank w3 = true -> py_blank w4 = true ->
  handle (CallbackQuery u (Some ("answer|" +:+ (w1 +:+ py_str qi +:+ w2) +:+ "|" +:+
                                 (w3 +:+ py_str c +:+ w4)))) m ds os =
    handle (CallbackQuery u (Some (answer_data qi c))) m ds os.
Proof.
  intros H1 H2 H3 H4. unfold handle, answer_data. rewrite !dispatch_answer_prefix.
  erewrite process_answer_parse; [reflexivity|].
  change ("answer|" +:+ py_str qi +:+ "|" +:+ py_str c) with (answer_data qi c).
  by rewrite parse_answer_padded, parse_answer_data.
Qed.

Lemma padded_answer_accepted_witness :
  py_blank " " = true /\ py_blank "" = true /\
  handle (CallbackQuery 7 (Some "answer| 1|2 ")) ∅ [0] [] =
    handle (CallbackQuery 7 (Some (answer_data 1 2))) ∅ [0] [].
Proof.
  assert (py_blank " " = true) as Hs by reflexivity.
  assert (py_blank "" = true) as He by reflexivity.
  split_and!; [exact Hs | exact He |].
  exact (padded_answer_accepted 7 1 2 " " "" "" " " ∅ [0] [] Hs He He Hs).
Defined.

End Scenarios.
